(** * Response normalisation of the movie-review sentiment marker

    A shallow embedding of [sentiment_llm.py]: the text sanitizer, the JSON
    extractor, the label normalizer, the explanation shortener, the schema
    coercer, the prompt builder and the orchestrator [analyze_review],
    followed by the properties the specification states about them; and of
    the cache and the dataset loop of [streamlit_app.py], which call it.

    Conventions of the embedding.
    - A Python [str] is a [string]; a character is a code point below 256.
    - A Python [float] is a [spec_float] read at binary64 (precision 53,
      [emax] 1024); comparisons are those of the represented numbers.
    - A parsed JSON document is a [value]; a JSON object is a finite map
      from strings to values.
    - A call either returns ([Ok]) or raises ([Raise]).
    - What the module takes from outside (the JSON reader, [float] on a
      string, [repr] of floats and containers, the generative model) is a
      variable of the section [Core]. *)

From Stdlib Require Import ZArith String Ascii List Lia Bool.
From Stdlib Require Import Numbers.DecimalString.
From Stdlib Require Import Floats.SpecFloat.
From stdpp Require Import base option gmap strings list.

Local Open Scope Z_scope.

(** ** Python strings *)

Module PyStr.

(** [str.isspace] on one character (also the class [\s] of [re] on [str]
    patterns): the ASCII white space, the four separators 0x1c-0x1f, NEL
    and the no-break space. *)
Definition isspace (c : ascii) : bool :=
  let n := nat_of_ascii c in
  ((9 <=? n)%nat && (n <=? 13)%nat)
  || ((28 <=? n)%nat && (n <=? 32)%nat)
  || (n =? 133)%nat || (n =? 160)%nat.

(** [str.lower] on one character: A-Z, and the Latin-1 capitals
    0xC0-0xDE except the multiplication sign 0xD7. *)
Definition lower_char (c : ascii) : ascii :=
  let n := nat_of_ascii c in
  if ((65 <=? n)%nat && (n <=? 90)%nat)
     || ((192 <=? n)%nat && (n <=? 222)%nat && negb (n =? 215)%nat)
  then ascii_of_nat (n + 32) else c.

Fixpoint lower (s : string) : string :=
  match s with
  | EmptyString => EmptyString
  | String c r => String (lower_char c) (lower r)
  end.

(** [s.lstrip(chars)], the set of characters given as a predicate. *)
Fixpoint lstrip_set (p : ascii -> bool) (s : string) : string :=
  match s with
  | EmptyString => EmptyString
  | String c r => if p c then lstrip_set p r else s
  end.

(** [s.rstrip(chars)]. *)
Fixpoint rstrip_set (p : ascii -> bool) (s : string) : string :=
  match s with
  | EmptyString => EmptyString
  | String c r =>
      match rstrip_set p r with
      | EmptyString => if p c then EmptyString else String c EmptyString
      | r' => String c r'
      end
  end.

(** [s.strip()] *)
Definition strip (s : string) : string :=
  rstrip_set isspace (lstrip_set isspace s).

(** [s[:n]] and [s[n:]] for [0 <= n] *)
Definition take (n : nat) (s : string) : string := String.substring 0 n s.

Fixpoint drop (n : nat) (s : string) : string :=
  match n, s with
  | O, _ => s
  | S _, EmptyString => EmptyString
  | S n', String _ r => drop n' r
  end.

(** [s[:-n]] for [0 < n] *)
Definition drop_last (n : nat) (s : string) : string :=
  take (String.length s - n) s.

(** [s[i:j]] for [0 <= i] and [0 <= j] *)
Definition slice (i j : Z) (s : string) : string :=
  String.substring (Z.to_nat i) (Z.to_nat (j - i)) s.

Definition startswith (p s : string) : bool := String.prefix p s.

Definition endswith (p s : string) : bool :=
  let n := String.length s in
  let m := String.length p in
  (m <=? n)%nat && String.eqb (drop (n - m) s) p.

(** [s.find(c)] for a one-character [c]: the least index, or [-1]. *)
Fixpoint find_from (c : ascii) (s : string) (i : Z) : Z :=
  match s with
  | EmptyString => -1
  | String a r => if Ascii.eqb a c then i else find_from c r (i + 1)
  end.

Definition find (c : ascii) (s : string) : Z := find_from c s 0.

(** [s.rfind(c)]: the greatest index, or [-1]. *)
Fixpoint rfind_from (c : ascii) (s : string) (i : Z) : Z :=
  match s with
  | EmptyString => -1
  | String a r =>
      let j := rfind_from c r (i + 1) in
      if j =? -1 then (if Ascii.eqb a c then i else -1) else j
  end.

Definition rfind (c : ascii) (s : string) : Z := rfind_from c s 0.

(** [sep.join(l)] *)
Definition join (sep : string) (l : list string) : string :=
  String.concat sep l.

(** [s.rsplit(c, 1)[0]]: what stands before the last [c], or all of [s]. *)
Definition rsplit1_head (c : ascii) (s : string) : string :=
  let j := rfind c s in
  if j =? -1 then s else take (Z.to_nat j) s.

(** [l[:n]] for any integer [n] *)
Definition slice_to {A} (n : Z) (l : list A) : list A :=
  if 0 <=? n then List.firstn (Z.to_nat n) l
  else List.firstn (List.length l - Z.to_nat (- n)) l.

(** [str(n)] for an [int] *)
Definition of_Z (z : Z) : string := NilZero.string_of_int (Z.to_int z).

Definition backtick (c : ascii) : bool := Ascii.eqb c "`"%char.

(** [s * n] *)
Fixpoint times (s : string) (n : nat) : string :=
  match n with
  | O => EmptyString
  | S n' => s +:+ times s n'
  end.

End PyStr.

(** ** The three regular expressions of the module *)

Module Re.

(** What [[\s\S]*\}] matches at the start of [s]: the star is greedy, so
    the longest prefix of [s] that ends with a closing brace. *)
Fixpoint any_star_close (s : string) : option string :=
  match s with
  | EmptyString => None
  | String c r =>
      match any_star_close r with
      | Some m => Some (String c m)
      | None => if Ascii.eqb c "}"%char then Some (String c EmptyString) else None
      end
  end.

(** [_JSON_BLOCK.search(s)], as [m.group(0)]: the leftmost position
    where [\{[\s\S]*\}] matches, and the match there. *)
Fixpoint _JSON_BLOCK_search (s : string) : option string :=
  match s with
  | EmptyString => None
  | String c r =>
      if Ascii.eqb c "{"%char then
        match any_star_close r with
        | Some m => Some (String c m)
        | None => _JSON_BLOCK_search r
        end
      else _JSON_BLOCK_search r
  end.

Definition sentence_end (c : ascii) : bool :=
  Ascii.eqb c "."%char || Ascii.eqb c "!"%char || Ascii.eqb c "?"%char.

(** [re.split(r'(?<=[.!?])\s+', s)] as the first piece and the others.
    [after_end]: the character before is one of [.!?]; [in_sep]: inside
    the white space of a separator. *)
Fixpoint split_sentences_go (after_end in_sep : bool) (s : string)
  : string * list string :=
  match s with
  | EmptyString => (EmptyString, [])
  | String c r =>
      if in_sep && PyStr.isspace c then split_sentences_go false true r
      else if after_end && PyStr.isspace c then
        let '(h, t) := split_sentences_go false true r in (EmptyString, h :: t)
      else
        let '(h, t) := split_sentences_go (sentence_end c) false r in
        (String c h, t)
  end.

Definition split_sentences (s : string) : list string :=
  let '(h, t) := split_sentences_go false false s in h :: t.

Definition delimiter (c : ascii) : bool :=
  Ascii.eqb c "|"%char || Ascii.eqb c ";"%char.

(** [re.split(r"[|;]\s*", s)], in the same shape. *)
Fixpoint split_delims_go (in_sep : bool) (s : string) : string * list string :=
  match s with
  | EmptyString => (EmptyString, [])
  | String c r =>
      if in_sep && PyStr.isspace c then split_delims_go true r
      else if delimiter c then
        let '(h, t) := split_delims_go true r in (EmptyString, h :: t)
      else
        let '(h, t) := split_delims_go false r in (String c h, t)
  end.

Definition split_delims (s : string) : list string :=
  let '(h, t) := split_delims_go false s in h :: t.

End Re.

(** ** Python floats: binary64 *)

Module PyFloat.

Definition prec : Z := 53.
Definition emax : Z := 1024.

(** [0.0] and [1.0] *)
Definition zero : spec_float := S754_zero false.
Definition one : spec_float := S754_finite false 4503599627370496 (-52).

Definition is_nan (x : spec_float) : bool :=
  match x with S754_nan => true | _ => false end.

(** A finite float as an integer times a power of two. *)
Definition dyadic (x : spec_float) : Z * Z :=
  match x with
  | S754_finite s m e => (if s then Z.neg m else Z.pos m, e)
  | _ => (0, 0)
  end.

(** The order of the represented numbers; [None] when one side is NaN. *)
Definition compare (x y : spec_float) : option comparison :=
  match x, y with
  | S754_nan, _ | _, S754_nan => None
  | S754_infinity s1, S754_infinity s2 =>
      Some (match s1, s2 with
            | true, false => Lt
            | false, true => Gt
            | _, _ => Eq
            end)
  | S754_infinity s, _ => Some (if s then Lt else Gt)
  | _, S754_infinity s => Some (if s then Gt else Lt)
  | _, _ =>
      let '(m1, e1) := dyadic x in
      let '(m2, e2) := dyadic y in
      let e := Z.min e1 e2 in
      Some (Z.compare (m1 * 2 ^ (e1 - e)) (m2 * 2 ^ (e2 - e)))
  end.

(** [x < y], [x > y] and [x <= y]: false as soon as one side is NaN. *)
Definition ltb (x y : spec_float) : bool :=
  match compare x y with Some Lt => true | _ => false end.

Definition gtb (x y : spec_float) : bool := ltb y x.

Definition leb (x y : spec_float) : bool :=
  match compare x y with Some Lt | Some Eq => true | _ => false end.

(** Truth value of a float: [x != 0.0] (NaN is true). *)
Definition truthy (x : spec_float) : bool :=
  match x with S754_zero _ => false | _ => true end.

(** [float(n)] for an [int]: the nearest double, ties to even; [None]
    stands for [OverflowError]. *)
Definition of_Z (z : Z) : option spec_float :=
  match binary_normalize prec emax z 0 false with
  | S754_infinity _ => None
  | x => Some x
  end.

Definition of_bool (b : bool) : spec_float := if b then one else zero.

(** The integer nearest to [n / d], ties to even ([0 <= n], [0 < d]). *)
Definition div_half_even (n d : Z) : Z :=
  let q := n / d in
  let r := n mod d in
  match 2 * r ?= d with
  | Lt => q
  | Gt => q + 1
  | Eq => if Z.even q then q else q + 1
  end.

(** The integer nearest to [100 * m * 2^e], ties to even. *)
Definition hundredths (m : positive) (e : Z) : Z :=
  if 0 <=? e then 100 * Z.pos m * 2 ^ e
  else div_half_even (100 * Z.pos m) (2 ^ (- e)).

(** The double nearest to [k / 100], with sign [s]. *)
Definition of_hundredths (s : bool) (k : Z) : spec_float :=
  match k with
  | Z.pos p => SFdiv prec emax (S754_finite s p 0) (S754_finite false 100 0)
  | _ => S754_zero s
  end.

(** [round(x, 2)]: the exact value of [x] is rounded to two decimals,
    ties to even, and the decimal result is read back as the nearest
    double; zeros, infinities and NaN round to themselves. *)
Definition round2 (x : spec_float) : spec_float :=
  match x with
  | S754_finite s m e => of_hundredths s (hundredths m e)
  | _ => x
  end.

(** [0.0 <= x <= 1.0] *)
Definition in_unit (x : spec_float) : bool := leb zero x && leb x one.

End PyFloat.

(** ** Parsed JSON and Python values *)

#[warnings="-register-all"]
Inductive value : Type :=
| VNone
| VBool (b : bool)
| VInt (n : Z)
| VFloat (x : spec_float)
| VStr (s : string)
| VList (l : list value)
| VDict (d : gmap string value).

(** [bool(v)] *)
Definition truthy (v : value) : bool :=
  match v with
  | VNone => false
  | VBool b => b
  | VInt n => negb (n =? 0)
  | VFloat x => PyFloat.truthy x
  | VStr s => negb (String.eqb s EmptyString)
  | VList l => match l with [] => false | _ => true end
  | VDict d => negb (bool_decide (d = ∅))
  end.

(** [a or b] *)
Definition py_or (a b : value) : value := if truthy a then a else b.

(** [d.get(k)] *)
Definition dict_get (d : gmap string value) (k : string) : value :=
  default VNone (d !! k).

(** [type(v).__name__] *)
Definition type_name (v : value) : string :=
  match v with
  | VNone => "NoneType"
  | VBool _ => "bool"
  | VInt _ => "int"
  | VFloat _ => "float"
  | VStr _ => "str"
  | VList _ => "list"
  | VDict _ => "dict"
  end.

(** [isinstance(x, (str, int, float))]; [bool] is a subclass of [int]. *)
Definition is_scalar (v : value) : bool :=
  match v with
  | VStr _ | VInt _ | VBool _ | VFloat _ => true
  | _ => false
  end.

(** ** Failures and results *)

Inductive exn : Type :=
| ValueError (msg : string)
| AttributeError (msg : string)
| ServiceError (msg : string).

Inductive outcome (A : Type) : Type :=
| Ok (a : A)
| Raise (e : exn).

Arguments Ok {A} a.
Arguments Raise {A} e.

Record AnalysisResult : Type := {
  label : string;
  confidence : spec_float;
  explanation : string;
  evidence_phrases : list string
}.

(** ** The generative model, seen from the module *)

Record generation_config : Type := {
  temperature : spec_float;
  max_output_tokens : Z
}.

Record request : Type := {
  req_model : string;
  req_prompt : string;
  req_config : generation_config
}.

(** A response. [resp_text] is what reading the attribute [resp.text] does:
    it gives a text or [None], or it raises; an object with no such attribute
    raises an [AttributeError], and the accessor of the client library raises
    a [ValueError] on an answer that holds no candidate or no part.
    [resp_str] is [str(resp)]. *)
Record response : Type := {
  resp_text : outcome (option string);
  resp_str : string
}.

Definition in_set (s : string) (l : list string) : bool :=
  List.existsb (String.eqb s) l.

(** ** Fixed texts of the prompt *)

Definition nl : string := String "010"%char EmptyString.
Definition dq : string := String "034"%char EmptyString.

(** [s] between double quotes *)
Definition q (s : string) : string := dq +:+ s +:+ dq.

(** Every line followed by a line feed. *)
Definition unlines (l : list string) : string :=
  List.fold_right (fun x acc => x +:+ nl +:+ acc) EmptyString l.

Definition MODEL_NAME : string := "gemini-2.5-flash-lite".

Definition _PROMPT_INSTRUCTIONS : string :=
  nl +:+ unlines [
    "You are a precise movie-review sentiment classifier.";
    EmptyString;
    "Return ONLY one compact JSON object and nothing else. No commentary, no markdown.";
    "Schema (exact):";
    "{";
    "  " +:+ q "label" +:+ ": " +:+ q "Positive | Negative | Neutral" +:+ ",";
    "  " +:+ q "confidence" +:+ ": 0.00,";
    "  " +:+ q "explanation" +:+ ": " +:+ q "Short reason grounded in the text (1-2 short sentences)." +:+ ",";
    "  " +:+ q "evidence_phrases" +:+ ": [" +:+ q "phrase1" +:+ ", " +:+ q "phrase2" +:+ "]";
    "}";
    EmptyString;
    "Rules:";
    "- Base judgment only on the provided review text.";
    "- Sarcasm: if sarcasm exists but target is ambiguous -> Neutral (Strict).";
    "- Comparisons (" +:+ q "better than the last one" +:+ "): use relative tone; if overall favorable -> Positive.";
    "- Third-party quotes without reviewer stance -> Neutral unless reviewer endorses/opposes.";
    "- Mixed opinions (" +:+ q "great acting, boring plot" +:+ "):";
    "  - STRICT mode: If review contains both positives and negatives, output " +:+ q "Neutral" +:+ " in label unless one side is overwhelmingly dominant.";
    "  - LENIENT mode: If review contains both positives and negatives, choose the stronger side (Positive or Negative) as the label. Always mention the weaker side in the explanation.";
    EmptyString;
    "Return valid JSON that follows the schema exactly. Keep " +:+ q "explanation" +:+ " short (one or two short sentences)."
  ].

(** One worked example: a review and the result expected for it. The
    confidence is kept as the text [json.dumps] prints for it. *)
Record few_shot : Type := {
  fs_review : string;
  fs_label : string;
  fs_confidence : string;
  fs_explanation : string;
  fs_evidence : list string
}.

Definition _FEW_SHOT : list few_shot := [
  {| fs_review := "Loved the soundtrack and the performances, even though the story drags in the middle.";
     fs_label := "Positive";
     fs_confidence := "0.86";
     fs_explanation := "Praise for soundtrack and performances outweighs the pacing complaint.";
     fs_evidence := ["Loved the soundtrack"; "performances"; "story drags"] |};
  {| fs_review := "Terrible pacing and wooden acting. Do not recommend.";
     fs_label := "Negative";
     fs_confidence := "0.94";
     fs_explanation := "Strong negative language about pacing and acting.";
     fs_evidence := ["Terrible pacing"; "wooden acting"; "Do not recommend"] |};
  {| fs_review := "Great acting, but the story was boring.";
     fs_label := "Neutral";
     fs_confidence := "0.7";
     fs_explanation := "The review praises the acting but criticizes the story, making the sentiment balanced.";
     fs_evidence := ["Great acting"; "story was boring"] |};
  {| fs_review := "Great acting, but the story was boring.";
     fs_label := "Positive";
     fs_confidence := "0.75";
     fs_explanation := "The review is mostly positive about the acting, but notes the story as a drawback.";
     fs_evidence := ["Great acting"; "story was boring"] |};
  {| fs_review := "The cinematography was stunning, though the pacing was a bit slow.";
     fs_label := "Positive";
     fs_confidence := "0.75";
     fs_explanation := "The review is mostly positive about cinematography, but mentions slow pacing as a drawback.";
     fs_evidence := ["cinematography was stunning"; "pacing was a bit slow"] |};
  {| fs_review := "The plot was messy and confusing, though the soundtrack was nice.";
     fs_label := "Negative";
     fs_confidence := "0.78";
     fs_explanation := "The review is mostly negative about the plot, but notes the soundtrack positively.";
     fs_evidence := ["plot was messy and confusing"; "soundtrack was nice"] |};
  {| fs_review := "The movie releases next week and stars two actors.";
     fs_label := "Neutral";
     fs_confidence := "0.7";
     fs_explanation := "Factual description without a clear opinion.";
     fs_evidence := [] |}
].

(** [json.dumps(ex["json"], ensure_ascii=False)] on an example: the keys
    in insertion order, [", "] between items and [": "] after a key. The
    texts of the examples need no escape. *)
Definition dumps_example (ex : few_shot) : string :=
  "{" +:+ q "label" +:+ ": " +:+ q (fs_label ex) +:+ ", "
  +:+ q "confidence" +:+ ": " +:+ fs_confidence ex +:+ ", "
  +:+ q "explanation" +:+ ": " +:+ q (fs_explanation ex) +:+ ", "
  +:+ q "evidence_phrases" +:+ ": ["
  +:+ PyStr.join ", " (List.map q (fs_evidence ex)) +:+ "]}".

Definition render_example (ex : few_shot) : string :=
  "Review: " +:+ q (fs_review ex) +:+ nl +:+ "JSON: " +:+ dumps_example ex.

Definition examples : string :=
  PyStr.join (nl +:+ nl) (List.map render_example _FEW_SHOT).

Definition STRICT_INST : string :=
  "STRICT mode active: For mixed reviews (both good and bad), "
  +:+ "output must be 'Neutral' unless one side is extremely dominant.".

Definition LENIENT_INST : string :=
  "LENIENT mode active: For mixed reviews (both good and bad), "
  +:+ "pick the dominant sentiment (Positive or Negative) as the label. "
  +:+ "Always mention the weaker side in the explanation.".

Definition mode_inst (strict : bool) : string :=
  if strict then STRICT_INST else LENIENT_INST.

(** The prompt [analyze_review] builds for a trimmed, non-empty review. *)
Definition build_prompt (review : string) (strict : bool) : string :=
  _PROMPT_INSTRUCTIONS +:+ nl +:+ "Mode instruction: " +:+ mode_inst strict
  +:+ nl +:+ nl +:+ examples +:+ nl +:+ nl
  +:+ "Review: " +:+ q review +:+ nl +:+ "Return the JSON now.".

(** The call made for a trimmed, non-empty review. *)
Definition request_for (review : string) (strict : bool)
    (temperature : spec_float) : request :=
  {| req_model := MODEL_NAME;
     req_prompt := build_prompt review strict;
     req_config := {| temperature := temperature; max_output_tokens := 256 |} |}.

(** The result returned for an empty review. *)
Definition EMPTY_RESULT : AnalysisResult :=
  {| label := "Neutral";
     confidence := PyFloat.zero;
     explanation := "No review text provided.";
     evidence_phrases := [] |}.

(** ** Collaborators for the closed examples

    Stand-ins for what the module takes from outside, exact on the inputs
    they list; the closed examples below use them on those inputs only. *)

(** The text [{"label": "pos"}]. *)
Definition text_label_pos : string :=
  "{" +:+ q "label" +:+ ": " +:+ q "pos" +:+ "}".

(** [json.loads] on four documents. *)
Definition json_loads_table (s : string) : option value :=
  if String.eqb s "{}" then Some (VDict ∅)
  else if String.eqb s "[1]" then Some (VList [VInt 1])
  else if String.eqb s "42" then Some (VInt 42)
  else if String.eqb s text_label_pos
  then Some (VDict {[ "label" := VStr "pos" ]})
  else None.

(** [0.9], [-0.5] and [1.7] as doubles. *)
Definition f_0_9 : spec_float := S754_finite false 8106479329266893 (-53).
Definition f_minus_0_5 : spec_float := S754_finite true 4503599627370496 (-53).
Definition f_1_7 : spec_float := S754_finite false 7656119366529843 (-52).

(** [float] on four strings; [float("abc")] raises. *)
Definition float_of_str_table (s : string) : option spec_float :=
  if String.eqb s "0.9" then Some f_0_9
  else if String.eqb s "1.7" then Some f_1_7
  else if String.eqb s "-0.5" then Some f_minus_0_5
  else if String.eqb s "nan" then Some S754_nan
  else None.

(** [repr] of the zeros, the infinities and NaN; the examples pass it no
    other float, and [?] stands for the spelling of those. *)
Definition repr_float_table (x : spec_float) : string :=
  match x with
  | S754_zero s => if s then "-0.0" else "0.0"
  | S754_infinity s => if s then "-inf" else "inf"
  | S754_nan => "nan"
  | S754_finite _ _ _ => "?"
  end.

(** [str] of the list [[1]] and of the empty list and object; the
    examples pass it no other container. *)
Definition repr_container_table (v : value) : string :=
  match v with
  | VList [VInt 1] => "[1]"
  | VList _ => "[]"
  | _ => "{}"
  end.

(** A model that answers every request with the text [t]. *)
Definition model_answering (t : string) (r : request) : outcome response :=
  Ok {| resp_text := Ok (Some t); resp_str := "response" |}.

(** A model whose every answer holds no text: reading [resp.text] raises
    the failure [e], as the accessor of the client library does on an
    answer without a candidate. *)
Definition model_without_text (e : exn) (r : request) : outcome response :=
  Ok {| resp_text := Raise e; resp_str := "response" |}.

(** Inputs of the closed examples. *)

(** [0.2], the default temperature *)
Definition temp_0_2 : spec_float := S754_finite false 7205759403792794 (-55).

(** [{"label": "pos", "confidence": 0, "score": 0.9}] *)
Definition d_zero_confidence : gmap string value :=
  {[ "label" := VStr "pos"; "confidence" := VInt 0; "score" := VFloat f_0_9 ]}.

(** [{"label": "pos", "confidence": NaN}] *)
Definition d_nan_confidence : gmap string value :=
  {[ "label" := VStr "pos"; "confidence" := VFloat S754_nan ]}.

(** [{"label": "pos", "evidence_phrases": [], "evidence": ["plot"]}] *)
Definition d_empty_evidence : gmap string value :=
  {[ "label" := VStr "pos"; "evidence_phrases" := VList [];
     "evidence" := VList [VStr "plot"] ]}.

(** [{"label": "pos", "evidence": [" plot "]}] *)
Definition d_padded_evidence : gmap string value :=
  {[ "label" := VStr "pos"; "evidence" := VList [VStr " plot "] ]}.

(** [{"label": "", "sentiment": "positive", "confidence": 0.0, "score": 0.9}] *)
Definition d_falsy_first : gmap string value :=
  {[ "label" := VStr EmptyString; "sentiment" := VStr "positive";
     "confidence" := VFloat PyFloat.zero; "score" := VFloat f_0_9 ]}.

(** A fenced answer: the marker, the [json] tag, an object, the marker. *)
Definition text_object : string :=
  "{" +:+ q "label" +:+ ":" +:+ q "Positive" +:+ ","
  +:+ q "confidence" +:+ ":0.9}".

Definition text_fenced : string :=
  "```json" +:+ nl +:+ text_object +:+ nl +:+ "```".

Definition review_mixed : string := "Great acting, but the story was boring.".

(** ** The module *)

Section Core.

(** [json.loads]; [None] when it raises. *)
Variable json_loads : string -> option value.
(** [float(s)] for a [str]; [None] when it raises [ValueError]. *)
Variable float_of_str : string -> option spec_float.
(** [str(x)] for a [float], and for a [list] or a [dict]. *)
Variable repr_float : spec_float -> string.
Variable repr_container : value -> string.
(** [GenerativeModel(name).generate_content(prompt, generation_config)] *)
Variable generate_content : request -> outcome response.

(** [str(v)] *)
Definition py_str (v : value) : string :=
  match v with
  | VNone => "None"
  | VBool b => if b then "True" else "False"
  | VInt n => PyStr.of_Z n
  | VFloat x => repr_float x
  | VStr s => s
  | VList _ | VDict _ => repr_container v
  end.

(** [float(v)]; [None] when it raises. *)
Definition py_float (v : value) : option spec_float :=
  match v with
  | VBool b => Some (PyFloat.of_bool b)
  | VInt n => PyFloat.of_Z n
  | VFloat x => Some x
  | VStr s => float_of_str s
  | VNone | VList _ | VDict _ => None
  end.

Definition _clean_text_preserve_json (raw : option string) : string :=
  match raw with
  | None => EmptyString
  | Some raw =>
      let text := PyStr.strip raw in
      let text :=
        if PyStr.startswith "```" text then
          let text := PyStr.strip (PyStr.lstrip_set PyStr.backtick text) in
          let text :=
            if String.eqb (PyStr.lower (PyStr.take 4 text)) "json"
            then PyStr.strip (PyStr.drop 4 text) else text in
          if PyStr.endswith "```" text
          then PyStr.strip (PyStr.drop_last 3 text) else text
        else text in
      match Re._JSON_BLOCK_search text with
      | Some m => m
      | None => text
      end
  end.

Definition _shorten_explanation (text : value) (max_sentences : Z) : string :=
  if negb (truthy text) then EmptyString
  else
    let s := PyStr.strip (py_str text) in
    let parts := Re.split_sentences s in
    let chosen := PyStr.slice_to max_sentences parts in
    let short := PyStr.strip (PyStr.join " " chosen) in
    if (240 <? String.length short)%nat
    then PyStr.rsplit1_head " " (PyStr.take 240 short) +:+ "..."
    else short.

(** Python's [None] stands both for a parsed [null] and for no result. *)
Definition _extract_json (raw_text : option string) : value :=
  let cleaned := _clean_text_preserve_json raw_text in
  if String.eqb cleaned EmptyString then VNone
  else
    match json_loads cleaned with
    | Some v => v
    | None =>
        let start := PyStr.find "{" cleaned in
        let end_ := PyStr.rfind "}" cleaned in
        if negb (start =? -1) && negb (end_ =? -1) && (end_ >? start) then
          let candidate := PyStr.slice start (end_ + 1) cleaned in
          match json_loads candidate with
          | Some v => v
          | None => VNone
          end
        else VNone
    end.

Definition _normalize_label (label_raw : value) : outcome string :=
  match label_raw with
  | VNone => Raise (ValueError "Label missing from model output")
  | _ =>
      let lab := PyStr.lower (PyStr.strip (py_str label_raw)) in
      if in_set lab ["positive"; "pos"; "p"] then Ok "Positive"
      else if in_set lab ["negative"; "neg"; "n"] then Ok "Negative"
      else if in_set lab ["neutral"; "neu"; "ntrl"; "neut"] then Ok "Neutral"
      else Raise (ValueError
                    ("Invalid label from model: '" +:+ py_str label_raw +:+ "'"))
  end.

(** The four fields of [_coerce_result], each from the parsed mapping. *)
Definition label_raw_of (d : gmap string value) : value :=
  py_or (dict_get d "label")
    (py_or (dict_get d "sentiment") (dict_get d "prediction")).

Definition conf_raw_of (d : gmap string value) : value :=
  py_or (dict_get d "confidence")
    (py_or (dict_get d "score") (VFloat PyFloat.zero)).

Definition confidence_of (d : gmap string value) : spec_float :=
  let confidence :=
    match py_float (conf_raw_of d) with
    | Some x => x
    | None => PyFloat.zero
    end in
  let confidence :=
    if PyFloat.ltb confidence PyFloat.zero || PyFloat.gtb confidence PyFloat.one
    then PyFloat.zero else confidence in
  PyFloat.round2 confidence.

Definition explanation_raw_of (d : gmap string value) : value :=
  py_or (dict_get d "explanation")
    (py_or (dict_get d "rationale")
       (py_or (dict_get d "reason")
          (py_or (dict_get d "justification") (VStr EmptyString)))).

Definition ev_of (d : gmap string value) : value :=
  py_or (dict_get d "evidence_phrases")
    (py_or (dict_get d "evidence")
       (py_or (dict_get d "highlights") (VList []))).

Definition ev_list_of (ev : value) : list string :=
  match ev with
  | VList l =>
      List.map (fun x => PyStr.strip (py_str x)) (List.filter is_scalar l)
  | VStr s =>
      List.map PyStr.strip
        (List.filter (fun s => negb (String.eqb (PyStr.strip s) EmptyString))
           (Re.split_delims s))
  | _ => []
  end.

Definition evidence_phrases_of (d : gmap string value) : list string :=
  PyStr.slice_to 3 (ev_list_of (ev_of d)).

(** [parsed.get] on anything but a mapping is an [AttributeError]. *)
Definition _coerce_result (parsed : value) : outcome AnalysisResult :=
  match parsed with
  | VDict d =>
      match _normalize_label (label_raw_of d) with
      | Raise e => Raise e
      | Ok label =>
          Ok {| label := label;
                confidence := confidence_of d;
                explanation := _shorten_explanation (explanation_raw_of d) 2;
                evidence_phrases := evidence_phrases_of d |}
      end
  | _ =>
      Raise (AttributeError
               ("'" +:+ type_name parsed +:+ "' object has no attribute 'get'"))
  end.

(** [getattr(resp, "text", None) or str(resp)]: [getattr] turns an
    [AttributeError] of the access into its default [None], and lets every
    other failure of the accessor through. *)
Definition raw_of (resp : response) : outcome string :=
  match resp_text resp with
  | Ok (Some t) => Ok (if String.eqb t EmptyString then resp_str resp else t)
  | Ok None => Ok (resp_str resp)
  | Raise (AttributeError _) => Ok (resp_str resp)
  | Raise e => Raise e
  end.

Definition unparseable (raw : string) : exn :=
  ValueError ("Model did not return parseable JSON. Raw output:" +:+ nl +:+ raw).

(** [analyze_review(review, strict=..., temperature=...)]: the requests
    sent to the model, in order, and the outcome of the call. *)
Definition analyze_review (review : option string) (strict : bool)
    (temperature : spec_float) : list request * outcome AnalysisResult :=
  let review := PyStr.strip (default EmptyString review) in
  if String.eqb review EmptyString then ([], Ok EMPTY_RESULT)
  else
    let req := request_for review strict temperature in
    match generate_content req with
    | Raise e => ([req], Raise e)
    | Ok resp =>
        match raw_of resp with
        | Raise e => ([req], Raise e)
        | Ok raw =>
            let parsed := _extract_json (Some raw) in
            if negb (truthy parsed) then ([req], Raise (unparseable raw))
            else ([req], _coerce_result parsed)
        end
    end.

(** *** Names for the statements *)

(** The alias sets of the Label Normalizer. *)
Definition POSITIVE_ALIASES : list string := ["positive"; "pos"; "p"].
Definition NEGATIVE_ALIASES : list string := ["negative"; "neg"; "n"].
Definition NEUTRAL_ALIASES : list string := ["neutral"; "neu"; "ntrl"; "neut"].

(** The form of a label the aliases are matched against. *)
Definition label_key (v : value) : string :=
  PyStr.lower (PyStr.strip (py_str v)).

(** The two parse attempts of the extractor, keeping apart a parsed
    [null] and no structure at all: [None] when the cleaned text is empty
    or when neither the text nor its brace-delimited part parses. *)
Definition recovered_structure (raw : string) : option value :=
  let cleaned := _clean_text_preserve_json (Some raw) in
  if String.eqb cleaned EmptyString then None
  else
    match json_loads cleaned with
    | Some v => Some v
    | None =>
        let start := PyStr.find "{" cleaned in
        let end_ := PyStr.rfind "}" cleaned in
        if negb (start =? -1) && negb (end_ =? -1) && (end_ >? start)
        then json_loads (PyStr.slice start (end_ + 1) cleaned)
        else None
    end.

(** *** The fallback chains

    What the code computes, and what the specification describes. *)

(** [v1 or v2 or ... or dflt] *)
Fixpoint first_truthy (vs : list value) (dflt : value) : value :=
  match vs with
  | [] => dflt
  | v :: vs' => if truthy v then v else first_truthy vs' dflt
  end.

(** Following the specification: the first value among the keys that
    is not absent (bound, and not [null]), and the default when every
    key is absent. *)
Fixpoint first_present (d : gmap string value) (keys : list string)
    (dflt : value) : value :=
  match keys with
  | [] => dflt
  | k :: ks =>
      match d !! k with
      | Some VNone | None => first_present d ks dflt
      | Some v => v
      end
  end.


Definition confidence_by_presence (d : gmap string value) : spec_float :=
  match py_float (first_present d ["confidence"; "score"] (VFloat PyFloat.zero)) with
  | Some x =>
      if PyFloat.ltb x PyFloat.zero || PyFloat.gtb x PyFloat.one
      then PyFloat.zero else PyFloat.round2 x
  | None => PyFloat.zero
  end.


(** Following the specification: [s] cut at every [|] and [;], as the
    first piece and the others. *)
Fixpoint cut_at_delims_go (s : string) : string * list string :=
  match s with
  | EmptyString => (EmptyString, [])
  | String c r =>
      let '(h, t) := cut_at_delims_go r in
      if Re.delimiter c then (EmptyString, h :: t) else (String c h, t)
  end.

Definition cut_at_delims (s : string) : list string :=
  let '(h, t) := cut_at_delims_go s in h :: t.

Definition nonempty (s : string) : bool := negb (String.eqb s EmptyString).

(** Following the specification: the parts of a single string, trimmed,
    without the empty ones. *)
Definition parts_of (s : string) : list string :=
  List.filter nonempty (List.map PyStr.strip (cut_at_delims s)).

(** Following the specification: the evidence computed from the first
    value that is not absent, each scalar element in its string form. *)
Definition evidence_by_presence (d : gmap string value) : list string :=
  let ev := first_present d ["evidence_phrases"; "evidence"; "highlights"]
              (VList []) in
  List.firstn 3
    match ev with
    | VList l => List.map py_str (List.filter is_scalar l)
    | VStr s => parts_of s
    | _ => []
    end.


(** Following the specification: a text that begins with a code fence,
    without the leading marker, the [json] tag in any case, and the
    trailing marker when there is one. *)
Definition without_fence (text : string) : string :=
  let body := PyStr.strip (PyStr.lstrip_set PyStr.backtick text) in
  let body :=
    if String.eqb (PyStr.lower (PyStr.take 4 body)) "json"
    then PyStr.strip (PyStr.drop 4 body) else body in
  if PyStr.endswith "```" body then PyStr.strip (PyStr.drop_last 3 body)
  else body.

(** Following the specification: the text from its first opening brace
    to its last closing brace when the one stands before the other, and
    the text itself otherwise. *)
Definition brace_block (text : string) : string :=
  let i := PyStr.find "{" text in
  let j := PyStr.rfind "}" text in
  if (0 <=? i) && (i <? j) then PyStr.slice i (j + 1) text else text.


(** [needle in s] as a proposition, and as a test. *)
Definition occurs (needle s : string) : Prop :=
  exists pre post, s = pre +:+ needle +:+ post.

Fixpoint occursb (needle s : string) : bool :=
  match s with
  | EmptyString => String.prefix needle s
  | String _ r => String.prefix needle s || occursb needle r
  end.

Fixpoint has_char (c : ascii) (s : string) : bool :=
  match s with
  | EmptyString => false
  | String a r => Ascii.eqb a c || has_char c r
  end.

(** What stands before the review in the prompt, and what stands after. *)
Definition prompt_head (strict : bool) : string :=
  _PROMPT_INSTRUCTIONS +:+ nl +:+ "Mode instruction: " +:+ mode_inst strict
  +:+ nl +:+ nl +:+ examples +:+ nl +:+ nl +:+ "Review: ".

Definition prompt_tail : string := nl +:+ "Return the JSON now.".


(** *** Names for the further properties *)

(** [s] is empty or begins with a character outside [p]. *)
Definition clean_head (p : ascii -> bool) (s : string) : bool :=
  match s with
  | EmptyString => true
  | String c _ => negb (p c)
  end.


(** The sentence boundaries of [s]: the places where white space follows
    one of [.!?]; [after_end] tells whether such a character stands just
    before [s]. *)
Fixpoint boundaries (after_end : bool) (s : string) : nat :=
  match s with
  | EmptyString => 0%nat
  | String c r =>
      ((if after_end && PyStr.isspace c then 1 else 0)
       + boundaries (Re.sentence_end c) r)%nat
  end.

(** Whether the last character is one of [.!?]; [after_end] for an empty
    string. *)
Fixpoint last_end (after_end : bool) (s : string) : bool :=
  match s with
  | EmptyString => after_end
  | String c r => last_end (Re.sentence_end c) r
  end.


(** What a returned result looks like: a canonical label, a confidence
    that is NaN or in the unit interval, an explanation of at most 243
    characters and two sentence pieces, and at most three evidence
    phrases, each trimmed. *)
Definition well_formed (r : AnalysisResult) : Prop :=
  In (label r) ["Positive"; "Negative"; "Neutral"]
  /\ (PyFloat.is_nan (confidence r) = true
      \/ PyFloat.in_unit (confidence r) = true)
  /\ (String.length (explanation r) <= 243)%nat
  /\ (List.length (Re.split_sentences (explanation r)) <= 2)%nat
  /\ (List.length (evidence_phrases r) <= 3)%nat
  /\ List.Forall (fun p => PyStr.strip p = p) (evidence_phrases r).

(** The keys the coercer reads. *)
Definition ALIAS_KEYS : list string :=
  ["label"; "sentiment"; "prediction"; "confidence"; "score";
   "explanation"; "rationale"; "reason"; "justification";
   "evidence_phrases"; "evidence"; "highlights"].


(** *** The cache of the application ([streamlit_app.py])

    [_cache] is a dictionary from [(text.strip(), bool(strict),
    float(temperature))] to results. Two keys are the same key when the
    texts and the flags are equal and the temperatures are equal as floats
    ([0.0] and [-0.0] are). A NaN is equal to no float; the identity of
    objects, by which a dictionary finds the very NaN it was given, is not
    modelled, so what is proved of a call supposes a temperature that is
    not NaN. *)

Definition float_eqb (x y : spec_float) : bool :=
  match PyFloat.compare x y with
  | Some Eq => true
  | _ => false
  end.

Definition finite_or_zero (x : spec_float) : bool :=
  match x with
  | S754_zero _ | S754_finite _ _ _ => true
  | _ => false
  end.

Definition cache_key : Type := string * bool * spec_float.

Definition key_eqb (k1 k2 : cache_key) : bool :=
  let '(s1, b1, t1) := k1 in
  let '(s2, b2, t2) := k2 in
  String.eqb s1 s2 && Bool.eqb b1 b2 && float_eqb t1 t2.

(** The dictionary as the list of its items, the latest first; an item is
    added only for a key that is not yet bound. *)
Definition cache : Type := list (cache_key * AnalysisResult).

(** [_cache.get(k)] *)
Fixpoint cache_get (c : cache) (k : cache_key) : option AnalysisResult :=
  match c with
  | [] => None
  | (k', v) :: c' => if key_eqb k' k then Some v else cache_get c' k
  end.

(** [cached_analyze(text, strict, temperature)] on the cache [c]: the
    requests sent, the outcome, and the cache afterwards. *)
Definition cached_analyze (text : string) (strict : bool)
    (temperature : spec_float) (c : cache)
  : list request * outcome AnalysisResult * cache :=
  let key := (PyStr.strip text, strict, temperature) in
  match cache_get c key with
  | Some v => ([], Ok v, c)
  | None =>
      match analyze_review (Some text) strict temperature with
      | (sent, Ok r) => (sent, Ok r, (key, r) :: c)
      | (sent, Raise e) => (sent, Raise e, c)
      end
  end.

(** The cache after a sequence of calls. *)
Fixpoint cached_calls (calls : list (string * bool * spec_float)) (c : cache)
  : cache :=
  match calls with
  | [] => c
  | (text, strict, temperature) :: rest =>
      cached_calls rest (snd (cached_analyze text strict temperature c))
  end.


(** *** The dataset loop of the application ([streamlit_app.py])

    A row of the uploaded frame, as [iterrows()] yields it: its index label,
    the text of its [review_text] cell ([None] for a missing cell, for which
    [pd.notna] is false), and the text that [row.get('review_id')] formats
    to. That text depends on the type the row has been given: the
    identifier [1] is printed [1] in a row of objects and [1.0] in a row
    that [iterrows()] has made a row of floats, so the field holds the
    printed text itself. The status line, the progress bar and the pause
    after each row show nothing of the data and are left out; [Ok] stands
    for the loops running to their end. *)
Record row : Type := {
  row_idx : Z;
  row_review_text : option string;
  row_review_id : string
}.

(** The four lists the loop fills. *)
Record columns : Type := {
  preds : list string;
  confidences : list spec_float;
  explanations : list string;
  evidence : list string
}.

Definition no_columns : columns :=
  {| preds := []; confidences := []; explanations := []; evidence := [] |}.

(** The four [append] of the loop body. *)
Definition append_result (acc : columns) (res : AnalysisResult) : columns :=
  {| preds := preds acc ++ [label res];
     confidences := confidences acc ++ [confidence res];
     explanations := explanations acc ++ [explanation res];
     evidence := evidence acc ++ [PyStr.join "|" (evidence_phrases res)] |}.

(** [ValueError(f"Empty review_text at row {idx}, review_id={row.get('review_id')}")] *)
Definition empty_review_error (r : row) : exn :=
  ValueError ("Empty review_text at row " +:+ PyStr.of_Z (row_idx r)
              +:+ ", review_id=" +:+ row_review_id r).

(** The temperature of the dataset mode, [0.2]. *)
Definition DATASET_TEMPERATURE : spec_float :=
  S754_finite false 7205759403792794 (-55).

(** The inner loop, [for idx, row in batch.iterrows()], from the cache [c]
    and the lists [acc]: the requests sent, the lists or the failure that
    ends the loop, and the cache afterwards. *)
Fixpoint process_rows (rows : list row) (strict : bool) (c : cache)
    (acc : columns) : list request * outcome columns * cache :=
  match rows with
  | [] => ([], Ok acc, c)
  | r :: rest =>
      let review_text := default EmptyString (row_review_text r) in
      if String.eqb (PyStr.strip review_text) EmptyString
      then ([], Raise (empty_review_error r), c)
      else
        match cached_analyze review_text strict DATASET_TEMPERATURE c with
        | (sent, Raise e, c') => (sent, Raise e, c')
        | (sent, Ok res, c') =>
            let '(sent', o, c'') :=
              process_rows rest strict c' (append_result acc res) in
            (sent ++ sent', o, c'')
        end
  end.

(** The outer loop over the batches. *)
Fixpoint process_batches (bs : list (list row)) (strict : bool) (c : cache)
    (acc : columns) : list request * outcome columns * cache :=
  match bs with
  | [] => ([], Ok acc, c)
  | b :: rest =>
      match process_rows b strict c acc with
      | (sent, Raise e, c') => (sent, Raise e, c')
      | (sent, Ok acc', c') =>
          let '(sent', o, c'') := process_batches rest strict c' acc' in
          (sent ++ sent', o, c'')
      end
  end.

(** [df.iloc[start:start + batch_size]] for the [n] next values of
    [range(0, total, batch_size)]. *)
Fixpoint batches_from (n start batch_size : nat) (rows : list row)
  : list (list row) :=
  match n with
  | O => []
  | S n' =>
      List.firstn batch_size (List.skipn start rows)
      :: batches_from n' (start + batch_size) batch_size rows
  end.

(** The batches of the frame; [range(0, total, batch_size)] has
    [ceil(total / batch_size)] values. *)
Definition batches (batch_size : nat) (rows : list row) : list (list row) :=
  batches_from ((List.length rows + batch_size - 1) / batch_size) 0
    batch_size rows.

(** The dataset run: the two loops, from empty lists. *)
Definition process_dataset (batch_size : nat) (rows : list row)
    (strict : bool) (c : cache) : list request * outcome columns * cache :=
  process_batches (batches batch_size rows) strict c no_columns.


(** [s] holds one of the delimiters [|] and [;]. *)
Fixpoint has_delimiter (s : string) : bool :=
  match s with
  | EmptyString => false
  | String c r => Re.delimiter c || has_delimiter r
  end.

(** A phrase that the [|]-joined column of the dataset mode gives back:
    trimmed, not empty, without a delimiter. *)
Definition plain_phrase (p : string) : Prop :=
  PyStr.strip p = p /\ p <> EmptyString /\ has_delimiter p = false.


(** Every result the cache holds is well formed. *)
Definition cache_ok (c : cache) : Prop :=
  List.Forall (fun kv => well_formed (snd kv)) c.

(** The lists of the dataset run hold canonical labels, confidences that
    are NaN or in the unit interval, and explanations of at most 243
    characters. *)
Definition columns_ok (cols : columns) : Prop :=
  List.Forall (fun l => In l ["Positive"; "Negative"; "Neutral"]) (preds cols)
  /\ List.Forall (fun x => PyFloat.is_nan x = true
                           \/ PyFloat.in_unit x = true) (confidences cols)
  /\ List.Forall (fun s => (String.length s <= 243)%nat) (explanations cols).


(** *** Inputs of the closed examples of the further properties *)

(** [{"label": "pos", "note": "x"}] *)
Definition d_label_note : gmap string value :=
  {[ "label" := VStr "pos"; "note" := VStr "x" ]}.

(** Two rows with a review, and two without, of a frame whose rows are
    rows of objects. *)
Definition row_0 : row :=
  {| row_idx := 0; row_review_text := Some "Great film"; row_review_id := "1" |}.
Definition row_1 : row :=
  {| row_idx := 1; row_review_text := Some " Great film "; row_review_id := "2" |}.
Definition row_blank : row :=
  {| row_idx := 2; row_review_text := Some "  "; row_review_id := "3" |}.
Definition row_3 : row :=
  {| row_idx := 3; row_review_text := None; row_review_id := "4" |}.

(** The only row of a frame of numbers, which [iterrows()] yields as a row
    of floats: the cell [review_text] is missing. *)
Definition row_of_floats : row :=
  {| row_idx := 0; row_review_text := None; row_review_id := "1.0" |}.

(** What the coercer returns for [{"label": "pos"}]. *)
Definition result_pos : AnalysisResult :=
  {| label := "Positive"; confidence := PyFloat.zero;
     explanation := EmptyString; evidence_phrases := [] |}.


(** The comparison behind the accuracy of the dataset mode: a row counts
    as right when the ground truth and the prediction are equal once
    trimmed and lower-cased. *)
Definition row_correct (ground pred : string) : bool :=
  String.eqb (PyStr.lower (PyStr.strip ground)) (PyStr.lower (PyStr.strip pred)).


(** ** Properties *)

(** *** Label Normalizer *)

Lemma in_set_In (s : string) (l : list string) :
  in_set s l = true <-> In s l.
Proof.
  unfold in_set. rewrite List.existsb_exists. split.
  - intros (x & Hx & Heq). apply String.eqb_eq in Heq. now subst.
  - intros H. exists s. split; [exact H | apply String.eqb_refl].
Qed.

Lemma in_set_not_In (s : string) (l : list string) :
  in_set s l = false <-> ~ In s l.
Proof.
  rewrite <- in_set_In. destruct (in_set s l); split; congruence.
Qed.

Lemma normalize_label_unfold (v : value) :
  v <> VNone ->
  _normalize_label v =
    if in_set (label_key v) POSITIVE_ALIASES then Ok "Positive"
    else if in_set (label_key v) NEGATIVE_ALIASES then Ok "Negative"
    else if in_set (label_key v) NEUTRAL_ALIASES then Ok "Neutral"
    else Raise (ValueError ("Invalid label from model: '" +:+ py_str v +:+ "'")).
Proof. destruct v; intros H; try reflexivity. congruence. Qed.

Lemma aliases_disjoint (s : string) :
  (In s POSITIVE_ALIASES -> ~ In s NEGATIVE_ALIASES /\ ~ In s NEUTRAL_ALIASES)
  /\ (In s NEGATIVE_ALIASES -> ~ In s NEUTRAL_ALIASES).
Proof.
  split.
  - intros H. rewrite <- !in_set_not_In.
    cbn in H. destruct H as [<-|[<-|[<-|[]]]]; split; reflexivity.
  - intros H. rewrite <- !in_set_not_In.
    cbn in H. destruct H as [<-|[<-|[<-|[]]]]; reflexivity.
Qed.

(** C1. An absent label fails with a missing-label [ValueError]. For any
    other value, the lower-cased, trimmed string form decides: an alias
    of positive gives exactly [Positive], of negative [Negative], of
    neutral [Neutral]; every other value fails with a [ValueError] whose
    message quotes the raw value. Nothing but the three canonical labels
    is ever returned. *)
Theorem normalize_label_correct (v : value) :
  _normalize_label VNone = Raise (ValueError "Label missing from model output")
  /\ (v <> VNone ->
      (In (label_key v) POSITIVE_ALIASES -> _normalize_label v = Ok "Positive")
      /\ (In (label_key v) NEGATIVE_ALIASES -> _normalize_label v = Ok "Negative")
      /\ (In (label_key v) NEUTRAL_ALIASES -> _normalize_label v = Ok "Neutral")
      /\ (~ In (label_key v)
             (POSITIVE_ALIASES ++ NEGATIVE_ALIASES ++ NEUTRAL_ALIASES) ->
          _normalize_label v =
            Raise (ValueError
                     ("Invalid label from model: '" +:+ py_str v +:+ "'"))))
  /\ (forall s, _normalize_label v = Ok s ->
                In s ["Positive"; "Negative"; "Neutral"]).
Proof.
  split; [reflexivity | split].
  - intros Hv. rewrite (normalize_label_unfold v Hv).
    pose proof (aliases_disjoint (label_key v)) as [Hp Hn].
    repeat split.
    + intros H. apply in_set_In in H. now rewrite H.
    + intros H. destruct (in_set (label_key v) POSITIVE_ALIASES) eqn:E.
      * apply in_set_In in E. destruct (Hp E) as [Hneg _]. contradiction.
      * apply in_set_In in H. now rewrite H.
    + intros H. destruct (in_set (label_key v) POSITIVE_ALIASES) eqn:E.
      * apply in_set_In in E. destruct (Hp E) as [_ Hneu]. contradiction.
      * destruct (in_set (label_key v) NEGATIVE_ALIASES) eqn:E'.
        -- apply in_set_In in E'. specialize (Hn E'). contradiction.
        -- apply in_set_In in H. now rewrite H.
    + intros H. rewrite !List.in_app_iff in H.
      destruct (in_set (label_key v) POSITIVE_ALIASES) eqn:E1;
        [apply in_set_In in E1; tauto |].
      destruct (in_set (label_key v) NEGATIVE_ALIASES) eqn:E2;
        [apply in_set_In in E2; tauto |].
      destruct (in_set (label_key v) NEUTRAL_ALIASES) eqn:E3;
        [apply in_set_In in E3; tauto |].
      reflexivity.
  - intros s. destruct v; cbn -[in_set]; try discriminate;
      repeat match goal with
             | |- context [if ?b then _ else _] => destruct b
             end;
      intros [= <-]; cbn; tauto.
Qed.

(** *** Facts about strings *)

Lemma length_append (s t : string) :
  String.length (s +:+ t) = (String.length s + String.length t)%nat.
Proof. induction s as [|c s IH]; simpl; [reflexivity | now f_equal]. Qed.

Lemma length_substring_0 (n : nat) (s : string) :
  String.length (String.substring 0 n s) = Nat.min n (String.length s).
Proof.
  revert s. induction n as [|n IH]; intros [|c s]; cbn; try reflexivity.
  now rewrite IH.
Qed.

Lemma length_take (n : nat) (s : string) :
  String.length (PyStr.take n s) = Nat.min n (String.length s).
Proof. apply length_substring_0. Qed.

Lemma length_rsplit1_head (c : ascii) (s : string) :
  (String.length (PyStr.rsplit1_head c s) <= String.length s)%nat.
Proof.
  unfold PyStr.rsplit1_head. destruct (_ =? _); [lia |].
  rewrite length_take. lia.
Qed.

(** *** Explanation Shortener *)

Lemma shorten_explanation_falsy (text : value) (n : Z) :
  truthy text = false -> _shorten_explanation text n = EmptyString.
Proof. unfold _shorten_explanation. now intros ->. Qed.

(** The bound the code does keep: 240 characters and the ellipsis. *)
Lemma shorten_explanation_length (text : value) (n : Z) :
  (String.length (_shorten_explanation text n) <= 243)%nat.
Proof.
  unfold _shorten_explanation.
  destruct (negb (truthy text)); [cbn; lia |].
  match goal with |- context [(240 <? ?l)%nat] => destruct (Nat.ltb_spec 240 l) end.
  - rewrite length_append.
    pose proof (length_rsplit1_head " "
      (PyStr.take 240 (PyStr.strip (PyStr.join " "
         (PyStr.slice_to n (Re.split_sentences (PyStr.strip (py_str text)))))))) as Hle.
    rewrite length_take in Hle. cbn [String.length]. lia.
  - lia.
Qed.

(** C2. The shortener is total and gives the empty string for an absent
    or empty text, but it does not keep to 240 characters: the ellipsis
    is appended after the cut at 240. On 241 letters without a space it
    returns 240 letters and the ellipsis, 243 characters; on sixty
    five-character words it returns 242 characters. *)
Theorem shorten_explanation_overlong :
  _shorten_explanation VNone 2 = EmptyString
  /\ _shorten_explanation (VStr EmptyString) 2 = EmptyString
  /\ _shorten_explanation (VStr (PyStr.times "a" 241)) 2
     = PyStr.times "a" 240 +:+ "..."
  /\ String.length (_shorten_explanation (VStr (PyStr.times "a" 241)) 2) = 243%nat
  /\ String.length (_shorten_explanation (VStr (PyStr.times "abcd " 60)) 2) = 242%nat.
Proof. repeat split; vm_compute; reflexivity. Qed.

(** *** Orchestrator *)

Lemma extract_json_recovered (raw : string) :
  _extract_json (Some raw) = default VNone (recovered_structure raw).
Proof.
  unfold _extract_json, recovered_structure.
  destruct (String.eqb _ EmptyString); [reflexivity |].
  destruct (json_loads _); [reflexivity |].
  destruct (_ && _); [| reflexivity].
  destruct (json_loads _); reflexivity.
Qed.

Lemma analyze_review_nonempty (review : option string) (strict : bool)
    (temperature : spec_float) :
  let r := PyStr.strip (default EmptyString review) in
  r <> EmptyString ->
  analyze_review review strict temperature =
    let req := request_for r strict temperature in
    match generate_content req with
    | Raise e => ([req], Raise e)
    | Ok resp =>
        match raw_of resp with
        | Raise e => ([req], Raise e)
        | Ok raw =>
            let parsed := _extract_json (Some raw) in
            if negb (truthy parsed) then ([req], Raise (unparseable raw))
            else ([req], _coerce_result parsed)
        end
    end.
Proof.
  intros r Hr. unfold analyze_review. fold r.
  destruct (String.eqb_spec r EmptyString) as [E|E]; [contradiction | reflexivity].
Qed.

Lemma coerce_result_raises (d : gmap string value) (e : exn) :
  _coerce_result (VDict d) = Raise e ->
  _normalize_label (label_raw_of d) = Raise e.
Proof.
  cbn. destruct (_normalize_label (label_raw_of d)); [discriminate |].
  now intros [= ->].
Qed.

Lemma normalize_label_not_unparseable (v : value) (raw : string) :
  _normalize_label v <> Raise (unparseable raw).
Proof.
  unfold unparseable.
  destruct v; cbn -[in_set]; try discriminate;
    repeat match goal with
           | |- context [if ?b then _ else _] => destruct b
           end; discriminate.
Qed.

Lemma coerce_result_not_unparseable (v : value) (raw : string) :
  _coerce_result v <> Raise (unparseable raw).
Proof.
  destruct v; try (cbn; discriminate).
  intros H. apply coerce_result_raises in H.
  now apply normalize_label_not_unparseable in H.
Qed.

(** C3, as the code has it. For a review that is not empty once trimmed
    and a model call that returns an answer: when reading the text of the
    answer fails with anything but a missing attribute, [analyze_review]
    fails with that failure, unchanged; when the raw text [raw] is read,
    [analyze_review] raises the diagnostic error carrying [raw] exactly
    when the extracted value is falsy: no structure was recovered, or the
    recovered value is itself falsy ([null], [false], a zero, an empty
    string, list or object). When a truthy object is recovered the call
    goes on to the coercion, and the only failure is the one the Label
    Normalizer raised, unchanged. *)
Theorem analyze_review_failures (review : option string) (strict : bool)
    (temperature : spec_float) (resp : response) :
  PyStr.strip (default EmptyString review) <> EmptyString ->
  generate_content
    (request_for (PyStr.strip (default EmptyString review)) strict temperature)
    = Ok resp ->
  (forall e, raw_of resp = Raise e ->
             snd (analyze_review review strict temperature) = Raise e)
  /\ forall raw, raw_of resp = Ok raw ->
     (snd (analyze_review review strict temperature)
        = Raise (unparseable raw)
      <-> truthy (_extract_json (Some raw)) = false)
     /\ (truthy (_extract_json (Some raw)) = false
         <-> recovered_structure raw = None
             \/ exists v, recovered_structure raw = Some v
                          /\ truthy v = false)
     /\ (forall d, _extract_json (Some raw) = VDict d ->
                   truthy (VDict d) = true ->
                   snd (analyze_review review strict temperature)
                     = _coerce_result (VDict d)
                   /\ forall e, _coerce_result (VDict d) = Raise e ->
                                _normalize_label (label_raw_of d) = Raise e).
Proof.
  intros Hr Hcall.
  rewrite (analyze_review_nonempty review strict temperature Hr).
  cbv zeta. rewrite Hcall.
  split; [intros e He; now rewrite He |].
  intros raw Hraw. rewrite Hraw.
  split; [| split].
  - destruct (truthy (_extract_json _)) eqn:E; cbn [negb snd].
    + split; [| discriminate].
      intros H. now apply coerce_result_not_unparseable in H.
    + tauto.
  - rewrite extract_json_recovered.
    destruct (recovered_structure raw) as [v|]; cbn.
    + split.
      * intros H. right. now exists v.
      * intros [H | (v' & [= <-] & H)]; [discriminate | exact H].
    + split; [now left | reflexivity].
  - intros d Hd Ht. rewrite Hd, Ht. cbn [negb snd].
    split; [reflexivity | apply coerce_result_raises].
Qed.

(** C4. A review that is absent or empty once trimmed gives the fixed
    default result, without a failure and without a call to the model. *)
Theorem analyze_review_empty (review : option string) (strict : bool)
    (temperature : spec_float) :
  PyStr.strip (default EmptyString review) = EmptyString ->
  analyze_review review strict temperature =
    ([], Ok {| label := "Neutral";
               confidence := PyFloat.zero;
               explanation := "No review text provided.";
               evidence_phrases := [] |}).
Proof. intros H. unfold analyze_review. now rewrite H. Qed.

(** *** Schema Coercer: confidence *)

Lemma conf_raw_first_truthy (d : gmap string value) :
  conf_raw_of d =
    first_truthy [dict_get d "confidence"; dict_get d "score"]
      (VFloat PyFloat.zero).
Proof. reflexivity. Qed.

Lemma div_half_even_le (n d b : Z) :
  0 <= n -> 0 < d -> 0 <= b -> n <= b * d ->
  0 <= PyFloat.div_half_even n d <= b.
Proof.
  intros Hn Hd Hb Hle. unfold PyFloat.div_half_even.
  pose proof (Z.div_mod n d ltac:(lia)) as Hdm.
  pose proof (Z.mod_pos_bound n d Hd) as Hr.
  assert (0 <= n / d) by (apply Z.div_pos; lia).
  assert (n / d <= b) by (apply Z.div_le_upper_bound; lia).
  destruct (Z.compare_spec (2 * (n mod d)) d) as [E|E|E]; [| lia |].
  - destruct (Z.even (n / d)); [lia |].
    assert (n / d <> b) by nia. lia.
  - assert (n / d <> b) by nia. lia.
Qed.

Lemma ltb_zero_finite (s : bool) (m : positive) (e : Z) :
  PyFloat.ltb (S754_finite s m e) PyFloat.zero = s.
Proof.
  unfold PyFloat.ltb, PyFloat.compare, PyFloat.zero, PyFloat.dyadic.
  assert (0 < 2 ^ (e - Z.min e 0)) by (apply Z.pow_pos_nonneg; lia).
  destruct s.
  - destruct (Z.compare_spec (Z.neg m * 2 ^ (e - Z.min e 0))
                (0 * 2 ^ (0 - Z.min e 0))); [nia | reflexivity | nia].
  - destruct (Z.compare_spec (Z.pos m * 2 ^ (e - Z.min e 0))
                (0 * 2 ^ (0 - Z.min e 0))); [reflexivity | nia | reflexivity].
Qed.

Lemma gtb_one_finite (m : positive) (e : Z) :
  PyFloat.gtb (S754_finite false m e) PyFloat.one = false ->
  (0 <= e -> Z.pos m * 2 ^ e <= 1)
  /\ (e < 0 -> Z.pos m <= 2 ^ (- e)).
Proof.
  intros H.
  assert (E : Z.pos m * 2 ^ (e - Z.min (-52) e)
              <= 2 ^ 52 * 2 ^ (-52 - Z.min (-52) e)).
  { revert H.
    unfold PyFloat.gtb, PyFloat.ltb, PyFloat.compare, PyFloat.one, PyFloat.dyadic.
    change 4503599627370496 with (2 ^ 52).
    destruct (Z.compare_spec (2 ^ 52 * 2 ^ (-52 - Z.min (-52) e))
                (Z.pos m * 2 ^ (e - Z.min (-52) e))); try discriminate; lia. }
  clear H. split; intros He.
  - rewrite Z.min_l in E by lia.
    replace (e - -52) with (e + 52) in E by lia.
    rewrite Z.pow_add_r in E by lia.
    change (-52 - -52) with 0 in E.
    assert (0 < 2 ^ e) by (apply Z.pow_pos_nonneg; lia).
    nia.
  - destruct (Z.le_gt_cases (-52) e) as [Hle|Hgt].
    + rewrite Z.min_l in E by lia.
      change (-52 - -52) with 0 in E.
      replace 52 with ((e - -52) + - e) in E at 1 by lia.
      rewrite Z.pow_add_r in E by lia.
      assert (0 < 2 ^ (e - -52)) by (apply Z.pow_pos_nonneg; lia).
      nia.
    + rewrite Z.min_r in E by lia.
      replace (e - e) with 0 in E by lia.
      replace (2 ^ 52 * 2 ^ (-52 - e)) with (2 ^ (- e)) in E.
      * change (2 ^ 0) with 1 in E. lia.
      * rewrite <- Z.pow_add_r by lia. f_equal. lia.
Qed.

Lemma hundredths_unit (m : positive) (e : Z) :
  PyFloat.gtb (S754_finite false m e) PyFloat.one = false ->
  0 <= PyFloat.hundredths m e <= 100.
Proof.
  intros H. apply gtb_one_finite in H as [Hnn Hneg].
  unfold PyFloat.hundredths. destruct (Z.leb_spec 0 e) as [He|He].
  - specialize (Hnn He). assert (0 < 2 ^ e) by (apply Z.pow_pos_nonneg; lia). nia.
  - specialize (Hneg He).
    assert (0 < 2 ^ (- e)) by (apply Z.pow_pos_nonneg; lia).
    apply div_half_even_le; lia.
Qed.

Lemma of_hundredths_unit (k : Z) :
  0 <= k <= 100 -> PyFloat.in_unit (PyFloat.of_hundredths false k) = true.
Proof.
  intros Hk.
  assert (H : List.forallb
                (fun n => PyFloat.in_unit (PyFloat.of_hundredths false (Z.of_nat n)))
                (List.seq 0 101) = true) by (vm_compute; reflexivity).
  rewrite List.forallb_forall in H.
  specialize (H (Z.to_nat k)). rewrite Z2Nat.id in H by lia.
  apply H. apply List.in_seq. lia.
Qed.

(** Inside the unit interval, [round(x, 2)] is the double nearest to a
    whole number of hundredths between 0 and 100, and stays inside. *)
Lemma round2_unit (x : spec_float) :
  PyFloat.is_nan x = false ->
  PyFloat.ltb x PyFloat.zero = false ->
  PyFloat.gtb x PyFloat.one = false ->
  PyFloat.in_unit (PyFloat.round2 x) = true
  /\ exists s k, 0 <= k <= 100 /\ PyFloat.round2 x = PyFloat.of_hundredths s k.
Proof.
  destruct x as [s|s| |s m e]; intros Hnan Hlt Hgt; try discriminate.
  - split; [now destruct s | exists s, 0; split; [lia | reflexivity]].
  - destruct s; discriminate.
  - rewrite ltb_zero_finite in Hlt. subst s.
    pose proof (hundredths_unit m e Hgt) as Hk. cbn [PyFloat.round2].
    split; [now apply of_hundredths_unit |].
    exists false, (PyFloat.hundredths m e). now split.
Qed.

Lemma round2_zero : PyFloat.round2 PyFloat.zero = PyFloat.zero.
Proof. reflexivity. Qed.

Lemma confidence_of_cases (d : gmap string value) :
  (py_float (conf_raw_of d) = None -> confidence_of d = PyFloat.zero)
  /\ (forall x, py_float (conf_raw_of d) = Some x ->
        PyFloat.ltb x PyFloat.zero || PyFloat.gtb x PyFloat.one = true ->
        confidence_of d = PyFloat.zero)
  /\ (forall x, py_float (conf_raw_of d) = Some x ->
        PyFloat.ltb x PyFloat.zero || PyFloat.gtb x PyFloat.one = false ->
        confidence_of d = PyFloat.round2 x).
Proof.
  unfold confidence_of. repeat split.
  - now intros ->.
  - intros x -> Hout. now rewrite Hout.
  - intros x -> Hin. now rewrite Hin.
Qed.

(** C5, as the code has it. The confidence is read from the first truthy
    value among the keys [confidence] and [score], and from [0.0] when
    there is none. A value that [float] rejects, or one below [0.0] or
    above [1.0], gives [0.0]; any other is rounded to two decimals.
    Unless the value converts to NaN, the result is the double nearest
    to a whole number of hundredths and lies in the unit interval. This
    field never makes the coercion fail: the only failure of the
    coercion of a mapping is that of the label. *)
Theorem coerce_confidence (d : gmap string value) :
  conf_raw_of d =
    first_truthy [dict_get d "confidence"; dict_get d "score"]
      (VFloat PyFloat.zero)
  /\ (py_float (conf_raw_of d) = None -> confidence_of d = PyFloat.zero)
  /\ (forall x, py_float (conf_raw_of d) = Some x ->
        PyFloat.ltb x PyFloat.zero || PyFloat.gtb x PyFloat.one = true ->
        confidence_of d = PyFloat.zero)
  /\ (forall x, py_float (conf_raw_of d) = Some x ->
        PyFloat.ltb x PyFloat.zero || PyFloat.gtb x PyFloat.one = false ->
        confidence_of d = PyFloat.round2 x)
  /\ (py_float (conf_raw_of d) <> Some S754_nan ->
      PyFloat.in_unit (confidence_of d) = true
      /\ exists s k, 0 <= k <= 100
                     /\ confidence_of d = PyFloat.of_hundredths s k)
  /\ (forall r, _coerce_result (VDict d) = Ok r ->
                confidence r = confidence_of d)
  /\ (forall e, _coerce_result (VDict d) = Raise e ->
                _normalize_label (label_raw_of d) = Raise e).
Proof.
  pose proof (confidence_of_cases d) as (Hnone & Hout & Hin).
  split; [reflexivity |]. repeat split; try assumption.
  - destruct (py_float (conf_raw_of d)) as [x|] eqn:E.
    + destruct (PyFloat.ltb x PyFloat.zero || PyFloat.gtb x PyFloat.one) eqn:B.
      * now rewrite (Hout x eq_refl B).
      * rewrite (Hin x eq_refl B). apply orb_false_iff in B as [B1 B2].
        apply round2_unit; try assumption.
        destruct x; try reflexivity. congruence.
    + now rewrite (Hnone eq_refl).
  - destruct (py_float (conf_raw_of d)) as [x|] eqn:E.
    + destruct (PyFloat.ltb x PyFloat.zero || PyFloat.gtb x PyFloat.one) eqn:B.
      * rewrite (Hout x eq_refl B). exists false, 0. split; [lia | reflexivity].
      * rewrite (Hin x eq_refl B). apply orb_false_iff in B as [B1 B2].
        apply round2_unit; try assumption.
        destruct x; try reflexivity. congruence.
    + rewrite (Hnone eq_refl). exists false, 0. split; [lia | reflexivity].
  - intros r. cbn. destruct (_normalize_label (label_raw_of d)); [| discriminate].
    now intros [= <-].
  - apply coerce_result_raises.
Qed.

(** *** Schema Coercer: evidence phrases *)

Lemma isspace_not_delimiter (c : ascii) :
  PyStr.isspace c = true -> Re.delimiter c = false.
Proof.
  destruct c as [[] [] [] [] [] [] [] []]; vm_compute; congruence.
Qed.

Lemma lstrip_set_idem (p : ascii -> bool) (s : string) :
  PyStr.lstrip_set p (PyStr.lstrip_set p s) = PyStr.lstrip_set p s.
Proof.
  induction s as [|c s IH]; [reflexivity |].
  cbn. destruct (p c) eqn:E; [exact IH |]. cbn. now rewrite E.
Qed.

Lemma strip_lstrip (s : string) :
  PyStr.strip (PyStr.lstrip_set PyStr.isspace s) = PyStr.strip s.
Proof. unfold PyStr.strip. now rewrite lstrip_set_idem. Qed.

(** The pieces of the regular expression are those of the plain cut,
    less the white space that follows a delimiter. *)
Lemma split_delims_go_cut (s : string) (in_sep : bool) :
  Re.split_delims_go in_sep s =
    (if in_sep then PyStr.lstrip_set PyStr.isspace (fst (cut_at_delims_go s))
     else fst (cut_at_delims_go s),
     List.map (PyStr.lstrip_set PyStr.isspace) (snd (cut_at_delims_go s))).
Proof.
  revert in_sep. induction s as [|c r IH]; intros in_sep.
  - now destruct in_sep.
  - cbn [Re.split_delims_go cut_at_delims_go].
    destruct (cut_at_delims_go r) as [h t] eqn:Er. cbn [fst snd] in IH.
    destruct (in_sep && PyStr.isspace c) eqn:E1.
    + apply andb_true_iff in E1 as [-> Hsp].
      rewrite (isspace_not_delimiter c Hsp), IH. cbn. now rewrite Hsp.
    + destruct (Re.delimiter c) eqn:E2.
      * rewrite IH. cbn. now destruct in_sep.
      * rewrite IH. cbn [fst snd].
        destruct in_sep; [| reflexivity].
        cbn in E1. cbn. now rewrite E1.
Qed.

Lemma filter_map_strip (l : list string) :
  List.map PyStr.strip
    (List.filter (fun s => negb (String.eqb (PyStr.strip s) EmptyString))
       (List.map (PyStr.lstrip_set PyStr.isspace) l))
  = List.filter nonempty (List.map PyStr.strip l).
Proof.
  induction l as [|x l IH]; [reflexivity |].
  cbn [List.map List.filter]. rewrite strip_lstrip. unfold nonempty at 1.
  destruct (negb (String.eqb (PyStr.strip x) EmptyString)); cbn [List.map];
    rewrite IH; [now rewrite strip_lstrip | reflexivity].
Qed.

(** What the code computes from a single string is what the
    specification describes. *)
Lemma ev_list_of_string (s : string) : ev_list_of (VStr s) = parts_of s.
Proof.
  unfold ev_list_of, parts_of, Re.split_delims, cut_at_delims.
  rewrite (split_delims_go_cut s false).
  destruct (cut_at_delims_go s) as [h t]. cbn [fst snd].
  pose proof (filter_map_strip t) as Ht.
  cbn [List.filter List.map]. unfold nonempty at 1.
  destruct (negb (String.eqb (PyStr.strip h) EmptyString)); cbn [List.map];
    now rewrite Ht.
Qed.

Lemma slice_to_3 {A} (l : list A) : PyStr.slice_to 3 l = List.firstn 3 l.
Proof. reflexivity. Qed.

(** C6, as the code has it. The evidence is read from the first truthy
    value among the keys [evidence_phrases], [evidence] and [highlights],
    and is the empty list when there is none. Of a list, the scalar
    elements are kept, each in its trimmed string form; a single string
    is cut at [|] and [;], the parts trimmed and the empty ones dropped;
    any other value gives the empty list. At most three items are kept,
    and this field never makes the coercion fail. *)
Theorem coerce_evidence (d : gmap string value) :
  ev_of d =
    first_truthy [dict_get d "evidence_phrases"; dict_get d "evidence";
                  dict_get d "highlights"] (VList [])
  /\ (forall l, ev_of d = VList l ->
        evidence_phrases_of d =
          List.firstn 3 (List.map (fun x => PyStr.strip (py_str x))
                           (List.filter is_scalar l)))
  /\ (forall s, ev_of d = VStr s ->
        evidence_phrases_of d = List.firstn 3 (parts_of s))
  /\ (ev_of d = VStr "great acting; boring plot" ->
        evidence_phrases_of d = ["great acting"; "boring plot"])
  /\ ((forall l, ev_of d <> VList l) -> (forall s, ev_of d <> VStr s) ->
        evidence_phrases_of d = [])
  /\ (List.length (evidence_phrases_of d) <= 3)%nat
  /\ (forall r, _coerce_result (VDict d) = Ok r ->
                evidence_phrases r = evidence_phrases_of d)
  /\ (forall e, _coerce_result (VDict d) = Raise e ->
                _normalize_label (label_raw_of d) = Raise e).
Proof.
  unfold evidence_phrases_of. rewrite !slice_to_3.
  split; [reflexivity |]. repeat split.
  - now intros l ->.
  - intros s ->. now rewrite ev_list_of_string.
  - now intros ->.
  - intros Hl Hs. destruct (ev_of d); try reflexivity.
    + now destruct (Hs s).
    + now destruct (Hl l).
  - rewrite List.length_firstn. lia.
  - intros r. cbn. destruct (_normalize_label (label_raw_of d)); [| discriminate].
    now intros [= <-].
  - apply coerce_result_raises.
Qed.

(** *** Text Sanitizer *)

Lemma find_from_bounds (c : ascii) (s : string) (i : Z) :
  0 <= i -> PyStr.find_from c s i = -1 \/ i <= PyStr.find_from c s i.
Proof.
  revert i. induction s as [|a r IH]; intros i Hi; cbn; [now left |].
  destruct (Ascii.eqb a c); [right; lia |].
  destruct (IH (i + 1) ltac:(lia)); [now left | right; lia].
Qed.

(** [find] gives the first occurrence and [rfind] the last. *)
Lemma find_from_first (c : ascii) (s : string) (i : Z) :
  (PyStr.find_from c s i = -1 /\ forall n, String.get n s <> Some c)
  \/ exists n, PyStr.find_from c s i = i + Z.of_nat n
               /\ String.get n s = Some c
               /\ forall k, (k < n)%nat -> String.get k s <> Some c.
Proof.
  revert i. induction s as [|a r IH]; intros i.
  - left. split; [reflexivity | intros n; destruct n; discriminate].
  - cbn [PyStr.find_from]. destruct (Ascii.eqb_spec a c) as [->|Hac].
    + right. exists 0%nat. repeat split; [lia | intros k Hk; lia].
    + destruct (IH (i + 1)) as [[E Hno] | (n & E & Hget & Hmin)].
      * left. split; [exact E |].
        intros [|n]; cbn; [congruence | apply Hno].
      * right. exists (S n). repeat split; [lia | exact Hget |].
        intros [|k] Hk; cbn; [congruence | apply Hmin; lia].
Qed.

Lemma rfind_from_last (c : ascii) (s : string) (i : Z) :
  0 <= i ->
  (PyStr.rfind_from c s i = -1 /\ forall n, String.get n s <> Some c)
  \/ exists n, PyStr.rfind_from c s i = i + Z.of_nat n
               /\ String.get n s = Some c
               /\ forall k, (n < k)%nat -> String.get k s <> Some c.
Proof.
  revert i. induction s as [|a r IH]; intros i Hi.
  - left. split; [reflexivity | intros n; destruct n; discriminate].
  - cbn [PyStr.rfind_from]. cbv zeta.
    destruct (IH (i + 1) ltac:(lia)) as [[E Hno] | (n & E & Hget & Hmax)].
    + rewrite E. change (-1 =? -1) with true. cbv iota.
      destruct (Ascii.eqb_spec a c) as [->|Hac].
      * right. exists 0%nat. repeat split; [lia |].
        intros [|k] Hk; [lia | cbn; apply Hno].
      * left. split; [reflexivity |].
        intros [|n]; cbn; [congruence | apply Hno].
    + rewrite E. destruct (Z.eqb_spec (i + 1 + Z.of_nat n) (-1)) as [E'|E']; [lia |].
      right. exists (S n). repeat split; [lia | exact Hget |].
      intros [|k] Hk; [lia | cbn; apply Hmax; lia].
Qed.

Lemma substring_0_0 (s : string) : String.substring 0 0 s = EmptyString.
Proof. now destruct s. Qed.

(** What the greedy star and the closing brace match is the text up to
    its last closing brace. *)
Lemma any_star_close_rfind (s : string) (i : Z) :
  0 <= i ->
  match Re.any_star_close s with
  | Some m =>
      i <= PyStr.rfind_from "}" s i
      /\ m = String.substring 0
               (Z.to_nat (PyStr.rfind_from "}" s i - i + 1)) s
  | None => PyStr.rfind_from "}" s i = -1
  end.
Proof.
  revert i. induction s as [|c r IH]; intros i Hi; [reflexivity |].
  cbn [Re.any_star_close PyStr.rfind_from]. specialize (IH (i + 1) ltac:(lia)).
  destruct (Re.any_star_close r) as [m|].
  - destruct IH as [Hj ->].
    destruct (Z.eqb_spec (PyStr.rfind_from "}" r (i + 1)) (-1)) as [E|E]; [lia |].
    split; [lia |].
    replace (Z.to_nat (PyStr.rfind_from "}" r (i + 1) - i + 1))
      with (S (Z.to_nat (PyStr.rfind_from "}" r (i + 1) - (i + 1) + 1))) by lia.
    reflexivity.
  - rewrite IH. cbn. destruct (Ascii.eqb c "}"); [| reflexivity].
    split; [lia |].
    replace (Z.to_nat (i - i + 1)) with 1%nat by lia.
    cbn. now rewrite substring_0_0.
Qed.

Lemma JSON_BLOCK_search_from (s : string) (i : Z) :
  0 <= i ->
  Re._JSON_BLOCK_search s =
    let f := PyStr.find_from "{" s i in
    let l := PyStr.rfind_from "}" s i in
    if (0 <=? f) && (f <? l)
    then Some (String.substring (Z.to_nat (f - i)) (Z.to_nat (l - f + 1)) s)
    else None.
Proof.
  revert i. induction s as [|c r IH]; intros i Hi; [reflexivity |].
  cbn [Re._JSON_BLOCK_search PyStr.find_from PyStr.rfind_from]. cbv zeta.
  pose proof (any_star_close_rfind r (i + 1) ltac:(lia)) as Hclose.
  pose proof (find_from_bounds "{" r (i + 1) ltac:(lia)) as Hf.
  specialize (IH (i + 1) ltac:(lia)). cbv zeta in IH.
  destruct (Ascii.eqb_spec c "{") as [->|Hc].
  - change (Ascii.eqb "{" "}") with false.
    destruct (Re.any_star_close r) as [m|].
    + destruct Hclose as [Hj ->].
      destruct (Z.eqb_spec (PyStr.rfind_from "}" r (i + 1)) (-1)) as [E|E]; [lia |].
      replace ((0 <=? i) && (i <? PyStr.rfind_from "}" r (i + 1))) with true
        by (symmetry; apply andb_true_iff; split; lia).
      replace (Z.to_nat (i - i)) with 0%nat by lia.
      replace (Z.to_nat (PyStr.rfind_from "}" r (i + 1) - i + 1))
        with (S (Z.to_nat (PyStr.rfind_from "}" r (i + 1) - (i + 1) + 1))) by lia.
      reflexivity.
    + rewrite Hclose in *. change (-1 =? -1) with true. cbv iota.
      replace ((0 <=? i) && (i <? -1)) with false
        by (symmetry; apply andb_false_iff; right; lia).
      rewrite IH.
      replace (PyStr.find_from "{" r (i + 1) <? -1) with false by (symmetry; lia).
      now rewrite andb_false_r.
  - rewrite IH.
    destruct (Z.eqb_spec (PyStr.rfind_from "}" r (i + 1)) (-1)) as [E|E].
    + rewrite E.
      replace (PyStr.find_from "{" r (i + 1) <? -1) with false by (symmetry; lia).
      rewrite andb_false_r.
      destruct (Ascii.eqb c "}").
      * replace ((0 <=? PyStr.find_from "{" r (i + 1))
                 && (PyStr.find_from "{" r (i + 1) <? i)) with false;
          [reflexivity |].
        symmetry. apply andb_false_iff. lia.
      * replace (PyStr.find_from "{" r (i + 1) <? -1) with false by (symmetry; lia).
        now rewrite andb_false_r.
    + destruct ((0 <=? PyStr.find_from "{" r (i + 1))
                && (PyStr.find_from "{" r (i + 1) <? PyStr.rfind_from "}" r (i + 1)))
        eqn:B; [| reflexivity].
      apply andb_true_iff in B as [B1 B2].
      replace (Z.to_nat (PyStr.find_from "{" r (i + 1) - i))
        with (S (Z.to_nat (PyStr.find_from "{" r (i + 1) - (i + 1)))) by lia.
      reflexivity.
Qed.

(** The search of [_JSON_BLOCK] finds the text from the first opening
    brace to the last closing brace, when the one precedes the other. *)
Lemma JSON_BLOCK_search_spec (s : string) :
  Re._JSON_BLOCK_search s =
    if (0 <=? PyStr.find "{" s) && (PyStr.find "{" s <? PyStr.rfind "}" s)
    then Some (PyStr.slice (PyStr.find "{" s) (PyStr.rfind "}" s + 1) s)
    else None.
Proof.
  rewrite (JSON_BLOCK_search_from s 0 ltac:(lia)). cbv zeta.
  unfold PyStr.find, PyStr.rfind, PyStr.slice.
  destruct (_ && _); [| reflexivity].
  do 2 f_equal; lia.
Qed.

(** C7. The sanitizer is total. An absent input gives the empty string.
    Otherwise the input is trimmed; when it then begins with a code
    fence, the leading marker, a [json] tag in any case and a trailing
    marker, if present, are removed; and the result is the text from the
    first opening brace to the last closing brace when the one stands
    before the other, and the cleaned text itself when not. *)
Theorem clean_text_preserve_json_correct (raw : string) :
  _clean_text_preserve_json None = EmptyString
  /\ _clean_text_preserve_json (Some raw) =
       brace_block
         (if PyStr.startswith "```" (PyStr.strip raw)
          then without_fence (PyStr.strip raw) else PyStr.strip raw).
Proof.
  split; [reflexivity |].
  unfold _clean_text_preserve_json, brace_block, without_fence.
  cbv zeta. rewrite JSON_BLOCK_search_spec.
  now destruct (_ && _).
Qed.

(** *** Prompt Builder *)

Lemma append_nil (s : string) : EmptyString +:+ s = s.
Proof. reflexivity. Qed.

Lemma append_cons (c : ascii) (s t : string) :
  String c s +:+ t = String c (s +:+ t).
Proof. reflexivity. Qed.

Lemma append_assoc (a b c : string) : (a +:+ b) +:+ c = a +:+ b +:+ c.
Proof.
  induction a as [|x a IH]; [reflexivity |].
  rewrite !append_cons. now f_equal.
Qed.

Lemma prefix_append (n post : string) : String.prefix n (n +:+ post) = true.
Proof.
  induction n as [|a n IH]; [now destruct post |].
  rewrite append_cons. simpl.
  destruct (ascii_dec a a); [exact IH | contradiction].
Qed.

Lemma occurs_occursb (needle s : string) :
  occurs needle s -> occursb needle s = true.
Proof.
  intros (pre & post & ->). induction pre as [|p pre IH].
  - rewrite append_nil. pose proof (prefix_append needle post) as H.
    destruct (needle +:+ post) as [|a s]; [exact H |].
    change (String.prefix needle (String a s) || occursb needle s = true).
    now rewrite H.
  - rewrite append_cons. simpl. rewrite IH. apply orb_true_r.
Qed.

Lemma occurs_cons (needle s : string) (c : ascii) :
  occurs needle s -> occurs needle (String c s).
Proof. intros (pre & post & ->). now exists (String c pre), post. Qed.

(** A needle without the character [c] that starts a text of the form
    [x ++ c :: y] ends inside [x]. *)
Lemma prefix_before_char (c : ascii) (needle x y post : string) :
  has_char c needle = false ->
  needle +:+ post = x +:+ String c y ->
  exists post', x = needle +:+ post'.
Proof.
  revert x. induction needle as [|a n IH]; intros x Hc Heq.
  - now exists x.
  - simpl in Hc. apply orb_false_iff in Hc as [Hac Hn].
    destruct x as [|b x]; rewrite ?append_nil, ?append_cons in Heq;
      injection Heq as -> Heq.
    + now rewrite Ascii.eqb_refl in Hac.
    + destruct (IH x Hn Heq) as (post' & ->). now exists post'.
Qed.

(** A needle without the character [c] occurs on one side of it. *)
Lemma occurs_split (c : ascii) (needle x y : string) :
  has_char c needle = false ->
  occurs needle (x +:+ String c y) ->
  occurs needle x \/ occurs needle y.
Proof.
  intros Hc (pre & post & Heq). revert x Heq.
  induction pre as [|p pre IH]; intros x Heq.
  - rewrite append_nil in Heq. symmetry in Heq.
    destruct (prefix_before_char c needle x y post Hc Heq) as (post' & ->).
    left. now exists EmptyString, post'.
  - destruct x as [|b x]; rewrite ?append_nil, ?append_cons in Heq;
      injection Heq as -> Heq.
    + right. now exists pre, post.
    + destruct (IH x Heq) as [H | H]; [left | now right].
      now apply occurs_cons.
Qed.

Lemma build_prompt_parts (review : string) (strict : bool) :
  build_prompt review strict =
    prompt_head strict +:+ String "034" (review +:+ String "034" prompt_tail).
Proof.
  unfold build_prompt, prompt_head, prompt_tail, q, dq.
  rewrite !append_assoc. reflexivity.
Qed.

(** A text without a double quote that occurs in the prompt and in
    neither of its fixed parts occurs in the review. *)
Lemma directive_in_prompt (needle review : string) (strict : bool) :
  has_char "034" needle = false ->
  occursb needle (prompt_head strict) = false ->
  occursb needle prompt_tail = false ->
  occurs needle (build_prompt review strict) ->
  occurs needle review.
Proof.
  intros Hc Hhead Htail H. rewrite build_prompt_parts in H.
  apply (occurs_split _ _ _ _ Hc) in H as [H | H].
  - apply occurs_occursb in H. congruence.
  - apply (occurs_split _ _ _ _ Hc) in H as [H | H]; [exact H |].
    apply occurs_occursb in H. congruence.
Qed.

(** What occurs in the review occurs in the prompt. *)
Lemma review_in_prompt (needle review : string) (strict : bool) :
  occurs needle review -> occurs needle (build_prompt review strict).
Proof.
  intros (pre & post & ->). rewrite build_prompt_parts.
  exists (prompt_head strict +:+ String "034" pre),
         (post +:+ String "034" prompt_tail).
  rewrite ?append_assoc, ?append_cons, ?append_assoc. reflexivity.
Qed.

Lemma analyze_review_trace (review : option string) (strict : bool)
    (temperature : spec_float) :
  PyStr.strip (default EmptyString review) <> EmptyString ->
  fst (analyze_review review strict temperature) =
    [request_for (PyStr.strip (default EmptyString review)) strict temperature].
Proof.
  intros Hr. rewrite (analyze_review_nonempty review strict temperature Hr).
  cbv zeta. destruct (generate_content _) as [resp|]; [| reflexivity].
  destruct (raw_of resp); [| reflexivity].
  now destruct (negb _).
Qed.

(** C8. For every review that is not empty once trimmed and both modes,
    exactly one request is sent, whatever follows, and its prompt is the
    concatenation, in this order, of the instruction block, the directive
    of the mode, the worked examples and the quoted review. The directive
    is the STRICT text when [strict] holds and the LENIENT text when not.
    The worked examples are the seven of [_FEW_SHOT] in their order, each
    a quoted review and its JSON, a blank line between two of them. The
    prompt holds the directive of its mode, and the fixed parts of the
    prompt never hold the other: the text of the other directive occurs
    in the prompt exactly when the review itself holds it. *)
Theorem analyze_review_prompt (review : option string) (strict : bool)
    (temperature : spec_float) :
  PyStr.strip (default EmptyString review) <> EmptyString ->
  exists prompt,
    fst (analyze_review review strict temperature) =
      [ {| req_model := MODEL_NAME;
           req_prompt := prompt;
           req_config := {| temperature := temperature;
                            max_output_tokens := 256 |} |} ]
    /\ prompt =
         _PROMPT_INSTRUCTIONS +:+ nl +:+ "Mode instruction: "
         +:+ (if strict then STRICT_INST else LENIENT_INST)
         +:+ nl +:+ nl +:+ examples +:+ nl +:+ nl
         +:+ "Review: " +:+ dq +:+ PyStr.strip (default EmptyString review)
         +:+ dq +:+ nl +:+ "Return the JSON now."
    /\ STRICT_INST =
         "STRICT mode active: For mixed reviews (both good and bad), output must be 'Neutral' unless one side is extremely dominant."
    /\ LENIENT_INST =
         "LENIENT mode active: For mixed reviews (both good and bad), pick the dominant sentiment (Positive or Negative) as the label. Always mention the weaker side in the explanation."
    /\ examples =
         PyStr.join (nl +:+ nl)
           (List.map
              (fun ex => "Review: " +:+ dq +:+ fs_review ex +:+ dq +:+ nl
                         +:+ "JSON: " +:+ dumps_example ex)
              _FEW_SHOT)
    /\ examples =
         PyStr.join (nl +:+ nl)
           [
             "Review: "
             +:+ q "Loved the soundtrack and the performances, even though the story drags in the middle."
             +:+ nl
             +:+ "JSON: {" +:+ q "label" +:+ ": " +:+ q "Positive" +:+ ", "
             +:+ q "confidence" +:+ ": 0.86, " +:+ q "explanation" +:+ ": "
             +:+ q "Praise for soundtrack and performances outweighs the pacing complaint."
             +:+ ", " +:+ q "evidence_phrases" +:+ ": ["
             +:+ q "Loved the soundtrack" +:+ ", " +:+ q "performances"
             +:+ ", " +:+ q "story drags" +:+ "]}";
             "Review: "
             +:+ q "Terrible pacing and wooden acting. Do not recommend."
             +:+ nl
             +:+ "JSON: {" +:+ q "label" +:+ ": " +:+ q "Negative" +:+ ", "
             +:+ q "confidence" +:+ ": 0.94, " +:+ q "explanation" +:+ ": "
             +:+ q "Strong negative language about pacing and acting." +:+ ", "
             +:+ q "evidence_phrases" +:+ ": [" +:+ q "Terrible pacing"
             +:+ ", " +:+ q "wooden acting" +:+ ", " +:+ q "Do not recommend"
             +:+ "]}";
             "Review: " +:+ q "Great acting, but the story was boring."
             +:+ nl
             +:+ "JSON: {" +:+ q "label" +:+ ": " +:+ q "Neutral" +:+ ", "
             +:+ q "confidence" +:+ ": 0.7, " +:+ q "explanation" +:+ ": "
             +:+ q "The review praises the acting but criticizes the story, making the sentiment balanced."
             +:+ ", " +:+ q "evidence_phrases" +:+ ": [" +:+ q "Great acting"
             +:+ ", " +:+ q "story was boring" +:+ "]}";
             "Review: " +:+ q "Great acting, but the story was boring."
             +:+ nl
             +:+ "JSON: {" +:+ q "label" +:+ ": " +:+ q "Positive" +:+ ", "
             +:+ q "confidence" +:+ ": 0.75, " +:+ q "explanation" +:+ ": "
             +:+ q "The review is mostly positive about the acting, but notes the story as a drawback."
             +:+ ", " +:+ q "evidence_phrases" +:+ ": [" +:+ q "Great acting"
             +:+ ", " +:+ q "story was boring" +:+ "]}";
             "Review: "
             +:+ q "The cinematography was stunning, though the pacing was a bit slow."
             +:+ nl
             +:+ "JSON: {" +:+ q "label" +:+ ": " +:+ q "Positive" +:+ ", "
             +:+ q "confidence" +:+ ": 0.75, " +:+ q "explanation" +:+ ": "
             +:+ q "The review is mostly positive about cinematography, but mentions slow pacing as a drawback."
             +:+ ", " +:+ q "evidence_phrases" +:+ ": ["
             +:+ q "cinematography was stunning" +:+ ", "
             +:+ q "pacing was a bit slow" +:+ "]}";
             "Review: "
             +:+ q "The plot was messy and confusing, though the soundtrack was nice."
             +:+ nl
             +:+ "JSON: {" +:+ q "label" +:+ ": " +:+ q "Negative" +:+ ", "
             +:+ q "confidence" +:+ ": 0.78, " +:+ q "explanation" +:+ ": "
             +:+ q "The review is mostly negative about the plot, but notes the soundtrack positively."
             +:+ ", " +:+ q "evidence_phrases" +:+ ": ["
             +:+ q "plot was messy and confusing" +:+ ", "
             +:+ q "soundtrack was nice" +:+ "]}";
             "Review: "
             +:+ q "The movie releases next week and stars two actors."
             +:+ nl
             +:+ "JSON: {" +:+ q "label" +:+ ": " +:+ q "Neutral" +:+ ", "
             +:+ q "confidence" +:+ ": 0.7, " +:+ q "explanation" +:+ ": "
             +:+ q "Factual description without a clear opinion." +:+ ", "
             +:+ q "evidence_phrases" +:+ ": []}" ]
    /\ occurs (if strict then STRICT_INST else LENIENT_INST) prompt
    /\ (occurs (if strict then LENIENT_INST else STRICT_INST) prompt
        <-> occurs (if strict then LENIENT_INST else STRICT_INST)
              (PyStr.strip (default EmptyString review))).
Proof.
  intros Hr.
  exists (build_prompt (PyStr.strip (default EmptyString review)) strict).
  split; [now apply analyze_review_trace |].
  split; [unfold build_prompt, mode_inst, q; now rewrite !append_assoc |].
  split; [reflexivity |].
  split; [reflexivity |].
  split; [reflexivity |].
  split; [vm_compute; reflexivity |].
  split.
  - exists (_PROMPT_INSTRUCTIONS +:+ nl +:+ "Mode instruction: ").
    eexists. unfold build_prompt, mode_inst. rewrite !append_assoc. reflexivity.
  - split; [| apply review_in_prompt].
    destruct strict; apply directive_in_prompt; vm_compute; reflexivity.
Qed.

(** *** Fallback by truth value *)


Lemma first_truthy_skip (v : value) (vs : list value) (dflt : value) :
  truthy v = false -> first_truthy (v :: vs) dflt = first_truthy vs dflt.
Proof. cbn. now intros ->. Qed.



(** *** A recovered value that is not a mapping *)

(** C10. When the model answers with a text from which a truthy value
    that is not an object is recovered, as for the texts [[1]] and [42],
    [analyze_review] fails with the attribute failure of the lookup on
    that value, which is neither the diagnostic error nor an invalid
    label error. *)
Theorem analyze_review_non_mapping (review : option string) (strict : bool)
    (temperature : spec_float) (resp : response) (raw : string) (v : value) :
  PyStr.strip (default EmptyString review) <> EmptyString ->
  generate_content
    (request_for (PyStr.strip (default EmptyString review)) strict temperature)
    = Ok resp ->
  raw_of resp = Ok raw ->
  recovered_structure raw = Some v ->
  truthy v = true ->
  (forall d, v <> VDict d) ->
  snd (analyze_review review strict temperature) =
    Raise (AttributeError
             ("'" +:+ type_name v +:+ "' object has no attribute 'get'"))
  /\ forall msg, snd (analyze_review review strict temperature)
                 <> Raise (ValueError msg).
Proof.
  intros Hr Hcall Hraw Hrec Ht Hd.
  rewrite (analyze_review_nonempty review strict temperature Hr).
  cbv zeta. rewrite Hcall, Hraw, extract_json_recovered, Hrec.
  change (default VNone (Some v)) with v.
  rewrite Ht. cbn [negb snd].
  assert (E : _coerce_result v =
              Raise (AttributeError
                       ("'" +:+ type_name v +:+ "' object has no attribute 'get'"))).
  { destruct v; try reflexivity. now destruct (Hd d). }
  rewrite E. split; [reflexivity | discriminate].
Qed.

(** ** Further properties *)

Set Default Proof Using "Type".

(** *** More facts about strings *)

Lemma append_nil_r (s : string) : s +:+ EmptyString = s.
Proof.
  induction s as [|c s IH]; [reflexivity |].
  rewrite append_cons. now f_equal.
Qed.

Lemma occurs_refl (s : string) : occurs s s.
Proof. exists EmptyString, EmptyString. now rewrite append_nil, append_nil_r. Qed.

Lemma occurs_trans (a b c : string) : occurs a b -> occurs b c -> occurs a c.
Proof.
  intros (p1 & q1 & ->) (p2 & q2 & ->).
  exists (p2 +:+ p1), (q1 +:+ q2). now rewrite !append_assoc.
Qed.

Lemma occurs_suffix (pre s : string) : occurs s (pre +:+ s).
Proof. exists pre, EmptyString. now rewrite append_nil_r. Qed.

Lemma occurs_prefix (s post : string) : occurs s (s +:+ post).
Proof. now exists EmptyString, post. Qed.

Lemma lstrip_set_suffix (p : ascii -> bool) (s : string) :
  exists pre, s = pre +:+ PyStr.lstrip_set p s.
Proof.
  induction s as [|c s (pre & IH)]; [now exists EmptyString |].
  cbn [PyStr.lstrip_set]. destruct (p c).
  - exists (String c pre). rewrite append_cons. now f_equal.
  - now exists EmptyString.
Qed.

Lemma rstrip_set_prefix (p : ascii -> bool) (s : string) :
  exists post, s = PyStr.rstrip_set p s +:+ post.
Proof.
  induction s as [|c s (post & IH)]; [now exists EmptyString |].
  cbn [PyStr.rstrip_set].
  destruct (PyStr.rstrip_set p s) as [|a r].
  - rewrite append_nil in IH. destruct (p c).
    + now exists (String c s).
    + exists post. rewrite append_cons, append_nil. now f_equal.
  - exists post. rewrite append_cons. now f_equal.
Qed.

Lemma strip_occurs (s : string) : occurs (PyStr.strip s) s.
Proof.
  unfold PyStr.strip.
  destruct (lstrip_set_suffix PyStr.isspace s) as (pre & Hl).
  destruct (rstrip_set_prefix PyStr.isspace (PyStr.lstrip_set PyStr.isspace s))
    as (post & Hr).
  exists pre, post. now rewrite <- Hr.
Qed.

Lemma substring_0_prefix (m : nat) (s : string) :
  exists post, s = String.substring 0 m s +:+ post.
Proof.
  revert s. induction m as [|m IH]; intros s.
  - exists s. now rewrite substring_0_0.
  - destruct s as [|c s]; [now exists EmptyString |].
    destruct (IH s) as (post & Hs). exists post.
    cbn [String.substring]. rewrite append_cons. now f_equal.
Qed.

Lemma substring_occurs (n m : nat) (s : string) :
  occurs (String.substring n m s) s.
Proof.
  revert s. induction n as [|n IH]; intros s.
  - destruct (substring_0_prefix m s) as (post & Hs).
    exists EmptyString, post. now rewrite append_nil.
  - destruct s as [|c s]; [destruct m; apply occurs_refl |].
    cbn [String.substring].
    replace (match m with 0%nat | _ => String.substring n m s end)
      with (String.substring n m s) by now destruct m.
    now apply occurs_cons.
Qed.

Lemma take_occurs (n : nat) (s : string) : occurs (PyStr.take n s) s.
Proof. apply substring_occurs. Qed.

Lemma drop_occurs (n : nat) (s : string) : occurs (PyStr.drop n s) s.
Proof.
  revert s. induction n as [|n IH]; intros s; [apply occurs_refl |].
  destruct s as [|c s]; [apply occurs_refl |].
  cbn [PyStr.drop]. now apply occurs_cons.
Qed.

Lemma occurs_length (a b : string) :
  occurs a b -> (String.length a <= String.length b)%nat.
Proof. intros (pre & post & ->). rewrite !length_append. lia. Qed.

Lemma lstrip_set_clean_head (p : ascii -> bool) (s : string) :
  clean_head p (PyStr.lstrip_set p s) = true.
Proof.
  induction s as [|c s IH]; [reflexivity |].
  cbn [PyStr.lstrip_set]. destruct (p c) eqn:E; [exact IH |].
  cbn. now rewrite E.
Qed.

Lemma rstrip_set_clean_head (p : ascii -> bool) (s : string) :
  clean_head p s = true -> clean_head p (PyStr.rstrip_set p s) = true.
Proof.
  destruct s as [|c s]; [reflexivity |]. cbn [clean_head PyStr.rstrip_set].
  intros H. destruct (PyStr.rstrip_set p s); [| exact H].
  destruct (p c) eqn:E; [discriminate |]. cbn. now rewrite E.
Qed.

Lemma lstrip_set_fixed (p : ascii -> bool) (s : string) :
  clean_head p s = true -> PyStr.lstrip_set p s = s.
Proof.
  destruct s as [|c s]; [reflexivity |]. cbn.
  now destruct (p c).
Qed.

Lemma rstrip_set_idem (p : ascii -> bool) (s : string) :
  PyStr.rstrip_set p (PyStr.rstrip_set p s) = PyStr.rstrip_set p s.
Proof.
  induction s as [|c s IH]; [reflexivity |].
  cbn [PyStr.rstrip_set].
  destruct (PyStr.rstrip_set p s) as [|a r] eqn:E.
  - destruct (p c) eqn:Ec; [reflexivity |]. cbn. now rewrite Ec.
  - cbn [PyStr.rstrip_set]. cbn [PyStr.rstrip_set] in IH. now rewrite IH.
Qed.

Lemma strip_idem (s : string) : PyStr.strip (PyStr.strip s) = PyStr.strip s.
Proof.
  unfold PyStr.strip.
  rewrite (lstrip_set_fixed PyStr.isspace
             (PyStr.rstrip_set PyStr.isspace (PyStr.lstrip_set PyStr.isspace s))).
  - apply rstrip_set_idem.
  - apply rstrip_set_clean_head, lstrip_set_clean_head.
Qed.

(** *** Sanitizer and extractor: structure of the result *)

Lemma any_star_close_fixed (s m : string) :
  Re.any_star_close s = Some m -> Re.any_star_close m = Some m.
Proof.
  revert m. induction s as [|c r IH]; intros m; [discriminate |].
  cbn [Re.any_star_close].
  destruct (Re.any_star_close r) as [m'|].
  - intros [= <-]. cbn [Re.any_star_close]. now rewrite (IH m' eq_refl).
  - destruct (Ascii.eqb c "}") eqn:E; [| discriminate].
    intros [= <-]. cbn. now rewrite E.
Qed.

Lemma any_star_close_rstrip (p : ascii -> bool) (m : string) :
  p "}"%char = false ->
  Re.any_star_close m = Some m ->
  PyStr.rstrip_set p m = m /\ m <> EmptyString.
Proof.
  intros Hp. induction m as [|a r IH]; [discriminate |].
  cbn [Re.any_star_close]. intros H. split; [| discriminate].
  destruct (Re.any_star_close r) as [m'|].
  - injection H as ->. destruct (IH eq_refl) as [Hr Hne].
    cbn [PyStr.rstrip_set]. rewrite Hr. now destruct r.
  - destruct (Ascii.eqb_spec a "}") as [->|]; [| discriminate].
    injection H as <-. cbn. now rewrite Hp.
Qed.

Lemma JSON_BLOCK_search_shape (s c : string) :
  Re._JSON_BLOCK_search s = Some c ->
  exists m, c = String "{" m /\ Re.any_star_close m = Some m.
Proof.
  induction s as [|a r IH]; [discriminate |].
  cbn [Re._JSON_BLOCK_search].
  destruct (Ascii.eqb_spec a "{") as [->|]; [| exact IH].
  destruct (Re.any_star_close r) as [m|] eqn:E; [| exact IH].
  intros [= <-]. exists m. split; [reflexivity |].
  now apply any_star_close_fixed with r.
Qed.

(** A block found by the search is found again in itself, is trimmed, and
    does not begin with a code fence. *)
Lemma JSON_BLOCK_search_fixed (s c : string) :
  Re._JSON_BLOCK_search s = Some c ->
  Re._JSON_BLOCK_search c = Some c
  /\ PyStr.strip c = c
  /\ PyStr.startswith "```" c = false.
Proof.
  intros H. destruct (JSON_BLOCK_search_shape s c H) as (m & -> & Hm).
  split; [| split].
  - cbn. now rewrite Hm.
  - destruct (any_star_close_rstrip PyStr.isspace m eq_refl Hm) as [Hr Hne].
    unfold PyStr.strip. cbn [PyStr.lstrip_set].
    change (PyStr.isspace "{") with false. cbv iota.
    cbn [PyStr.rstrip_set]. rewrite Hr. now destruct m.
  - reflexivity.
Qed.

Lemma JSON_BLOCK_search_occurs (s c : string) :
  Re._JSON_BLOCK_search s = Some c -> occurs c s.
Proof.
  rewrite JSON_BLOCK_search_spec. destruct (_ && _); [| discriminate].
  intros [= <-]. apply substring_occurs.
Qed.

(** The text the search runs on: trimmed, and a part of the raw text. *)
Lemma clean_text_cases (raw : string) :
  exists t,
    PyStr.strip t = t
    /\ occurs t raw
    /\ _clean_text_preserve_json (Some raw) =
         match Re._JSON_BLOCK_search t with
         | Some m => m
         | None => t
         end.
Proof.
  unfold _clean_text_preserve_json. cbv zeta.
  pose proof (strip_occurs raw) as H0.
  destruct (PyStr.startswith "```" (PyStr.strip raw)).
  - set (b0 := PyStr.strip (PyStr.lstrip_set PyStr.backtick (PyStr.strip raw))).
    assert (Hb0 : occurs b0 raw).
    { apply occurs_trans with (PyStr.strip raw); [| exact H0].
      apply occurs_trans with (PyStr.lstrip_set PyStr.backtick (PyStr.strip raw));
        [apply strip_occurs |].
      destruct (lstrip_set_suffix PyStr.backtick (PyStr.strip raw)) as (pre & Hp).
      rewrite Hp at 2. apply occurs_suffix. }
    set (b1 := if String.eqb (PyStr.lower (PyStr.take 4 b0)) "json"
               then PyStr.strip (PyStr.drop 4 b0) else b0).
    assert (Hb1 : PyStr.strip b1 = b1 /\ occurs b1 raw).
    { unfold b1. destruct (String.eqb _ "json").
      - split; [apply strip_idem |].
        apply occurs_trans with b0; [| exact Hb0].
        apply occurs_trans with (PyStr.drop 4 b0);
          [apply strip_occurs | apply drop_occurs].
      - split; [apply strip_idem | exact Hb0]. }
    destruct Hb1 as [Hs1 Ho1].
    destruct (PyStr.endswith "```" b1).
    + exists (PyStr.strip (PyStr.drop_last 3 b1)).
      split; [apply strip_idem | split; [| reflexivity]].
      apply occurs_trans with b1; [| exact Ho1].
      apply occurs_trans with (PyStr.drop_last 3 b1);
        [apply strip_occurs | apply take_occurs].
    + exists b1. now repeat split.
  - exists (PyStr.strip raw). split; [apply strip_idem | now split].
Qed.

(** X2. The sanitizer only cuts: its result is one contiguous part of the raw
    text, so it is never longer, and it holds no character that the raw
    text does not hold at that place. *)
Theorem clean_text_is_part (raw : string) :
  occurs (_clean_text_preserve_json (Some raw)) raw
  /\ (String.length (_clean_text_preserve_json (Some raw))
      <= String.length raw)%nat.
Proof.
  assert (H : occurs (_clean_text_preserve_json (Some raw)) raw).
  { destruct (clean_text_cases raw) as (t & _ & Ht & ->).
    destruct (Re._JSON_BLOCK_search t) as [m|] eqn:E; [| exact Ht].
    apply occurs_trans with t; [| exact Ht].
    now apply JSON_BLOCK_search_occurs. }
  split; [exact H | now apply occurs_length].
Qed.

Lemma clean_text_search (raw : string) :
  PyStr.strip (_clean_text_preserve_json (Some raw))
    = _clean_text_preserve_json (Some raw)
  /\ (Re._JSON_BLOCK_search (_clean_text_preserve_json (Some raw))
        = Some (_clean_text_preserve_json (Some raw))
      \/ Re._JSON_BLOCK_search (_clean_text_preserve_json (Some raw)) = None).
Proof.
  destruct (clean_text_cases raw) as (t & Hs & _ & ->).
  destruct (Re._JSON_BLOCK_search t) as [m|] eqn:E.
  - destruct (JSON_BLOCK_search_fixed t m E) as (Hf & Hst & _).
    split; [exact Hst | now left].
  - split; [exact Hs | now right].
Qed.

(** X3. Cleaning a cleaned text changes nothing, unless the cleaned text
    begins with a code fence again. *)
Theorem clean_text_idempotent (raw : string) :
  PyStr.startswith "```" (_clean_text_preserve_json (Some raw)) = false ->
  _clean_text_preserve_json (Some (_clean_text_preserve_json (Some raw)))
  = _clean_text_preserve_json (Some raw).
Proof.
  intros Hf. destruct (clean_text_search raw) as [Hs Hb].
  set (c := _clean_text_preserve_json (Some raw)) in *.
  unfold _clean_text_preserve_json at 1. cbv zeta.
  rewrite Hs, Hf. now destruct Hb as [-> | ->].
Qed.

Lemma endswith_char_cons (c a : ascii) (r : string) :
  PyStr.endswith (String c EmptyString) (String a r) = true ->
  (r = EmptyString /\ a = c)
  \/ PyStr.endswith (String c EmptyString) r = true.
Proof.
  unfold PyStr.endswith. cbn [String.length].
  replace (S (String.length r) - 1)%nat with (String.length r) by lia.
  destruct r as [|b r'].
  - cbn. intros H. left. split; [reflexivity |].
    destruct (Ascii.eqb_spec a c); [assumption | discriminate].
  - cbn [String.length PyStr.drop].
    replace (S (String.length r') - 1)%nat with (String.length r') by lia.
    intros H. right. exact H.
Qed.

Lemma endswith_brace_close (s : string) :
  PyStr.endswith "}" s = true -> Re.any_star_close s = Some s.
Proof.
  induction s as [|a r IH]; [discriminate |].
  intros H. apply endswith_char_cons in H as [[-> ->] | H].
  - reflexivity.
  - cbn [Re.any_star_close]. now rewrite (IH H).
Qed.

Lemma extract_json_reader (raw_text : option string) :
  _extract_json raw_text =
    if String.eqb (_clean_text_preserve_json raw_text) EmptyString then VNone
    else default VNone (json_loads (_clean_text_preserve_json raw_text)).
Proof.
  destruct raw_text as [raw|]; [| reflexivity].
  unfold _extract_json. cbv zeta.
  destruct (clean_text_search raw) as [_ Hb].
  set (c := _clean_text_preserve_json (Some raw)) in *.
  destruct (String.eqb c EmptyString); [reflexivity |].
  destruct (json_loads c) eqn:Ej; [reflexivity |]. cbn [default from_option].
  rewrite JSON_BLOCK_search_spec in Hb.
  pose proof (find_from_bounds "{" c 0 ltac:(lia)) as Hfind.
  fold (PyStr.find "{" c) in Hfind.
  destruct (negb (PyStr.find "{" c =? -1) && negb (PyStr.rfind "}" c =? -1)
            && (PyStr.rfind "}" c >? PyStr.find "{" c)) eqn:Econd;
    [| reflexivity].
  apply andb_true_iff in Econd as [Econd E3].
  apply andb_true_iff in Econd as [E1 E2].
  apply negb_true_iff, Z.eqb_neq in E1.
  assert (Hc : (0 <=? PyStr.find "{" c) && (PyStr.find "{" c <? PyStr.rfind "}" c)
               = true) by (apply andb_true_iff; split; lia).
  rewrite Hc in Hb. destruct Hb as [Hb | Hb]; [| discriminate].
  injection Hb as ->. now rewrite Ej.
Qed.

Lemma clean_text_braces (raw : string) :
  PyStr.startswith "{" raw = true ->
  PyStr.endswith "}" raw = true ->
  _clean_text_preserve_json (Some raw) = raw.
Proof.
  intros Hs He. destruct raw as [|a r]; [discriminate |].
  unfold PyStr.startswith in Hs. cbn [String.prefix] in Hs.
  destruct (ascii_dec "{" a) as [<-|]; [| discriminate].
  apply endswith_char_cons in He as [[_ [=]] | He].
  pose proof (endswith_brace_close r He) as Hc.
  assert (Hb : Re._JSON_BLOCK_search (String "{" r) = Some (String "{" r))
    by (cbn; now rewrite Hc).
  destruct (JSON_BLOCK_search_fixed _ _ Hb) as (_ & Hst & Hf).
  unfold _clean_text_preserve_json. cbv zeta.
  rewrite Hst. unfold PyStr.startswith in Hf |- *. rewrite Hf. now rewrite Hb.
Qed.

(** X4. An answer that begins with an opening brace and ends with a closing
    one is left as it is by the sanitizer, and the extractor gives what
    the reader gives for it ([None] when the reader fails). *)
Theorem clean_text_bare_object (raw : string) :
  PyStr.startswith "{" raw = true ->
  PyStr.endswith "}" raw = true ->
  _clean_text_preserve_json (Some raw) = raw
  /\ _extract_json (Some raw) = default VNone (json_loads raw).
Proof.
  intros Hs He. pose proof (clean_text_braces raw Hs He) as Hc.
  split; [exact Hc |].
  rewrite extract_json_reader, Hc.
  destruct raw; [discriminate | reflexivity].
Qed.

(** X1. The second attempt of the extractor, on the text between the first
    opening and the last closing brace, never recovers anything: the
    sanitizer has already cut the text to those braces, so the candidate
    is the cleaned text again. The extractor gives what the reader gives
    for the cleaned text, and [None] when the reader fails or the cleaned
    text is empty. *)
Theorem extract_json_direct (raw_text : option string) :
  _extract_json raw_text =
    if String.eqb (_clean_text_preserve_json raw_text) EmptyString then VNone
    else default VNone (json_loads (_clean_text_preserve_json raw_text)).
Proof. apply extract_json_reader. Qed.

(** *** Explanation Shortener: sentences and length *)

Lemma isspace_not_sentence_end (c : ascii) :
  PyStr.isspace c = true -> Re.sentence_end c = false.
Proof.
  destruct c as [[] [] [] [] [] [] [] []]; vm_compute; congruence.
Qed.

(** The split cuts at every boundary and nowhere else. *)
Lemma split_sentences_go_length (s : string) (after_end in_sep : bool) :
  after_end && in_sep = false ->
  List.length (snd (Re.split_sentences_go after_end in_sep s))
  = boundaries after_end s.
Proof.
  revert after_end in_sep. induction s as [|c r IH]; intros a i Hai;
    [reflexivity |].
  cbn [Re.split_sentences_go boundaries].
  destruct (PyStr.isspace c) eqn:Esp.
  - rewrite (isspace_not_sentence_end c Esp). rewrite !andb_true_r.
    destruct i.
    + rewrite andb_true_r in Hai. subst a. now rewrite IH.
    + destruct a.
      * specialize (IH false true eq_refl).
        destruct (Re.split_sentences_go false true r) as [h t].
        cbn [snd List.length] in *. now rewrite IH.
      * specialize (IH false false eq_refl).
        destruct (Re.split_sentences_go false false r) as [h t].
        cbn [snd] in *. now rewrite IH.
  - rewrite !andb_false_r.
    specialize (IH (Re.sentence_end c) false (andb_false_r _)).
    destruct (Re.split_sentences_go (Re.sentence_end c) false r) as [h t].
    cbn [snd] in *. now rewrite IH.
Qed.

Lemma split_sentences_length (s : string) :
  List.length (Re.split_sentences s) = S (boundaries false s).
Proof.
  unfold Re.split_sentences.
  pose proof (split_sentences_go_length s false false eq_refl) as H.
  destruct (Re.split_sentences_go false false s) as [h t].
  cbn [snd List.length] in *. now rewrite H.
Qed.

Lemma boundaries_app (a : bool) (x y : string) :
  boundaries a (x +:+ y)
  = (boundaries a x + boundaries (last_end a x) y)%nat.
Proof.
  revert a. induction x as [|c x IH]; intros a; [reflexivity |].
  rewrite append_cons. cbn [boundaries last_end]. rewrite IH. lia.
Qed.

Lemma boundaries_false_le (a : bool) (s : string) :
  (boundaries false s <= boundaries a s)%nat.
Proof.
  destruct s as [|c r]; cbn [boundaries andb]; [lia |].
  destruct (a && PyStr.isspace c); lia.
Qed.

Lemma boundaries_occurs (t s : string) :
  occurs t s -> (boundaries false t <= boundaries false s)%nat.
Proof.
  intros (pre & post & ->). rewrite !boundaries_app.
  pose proof (boundaries_false_le (last_end false pre) t). lia.
Qed.

(** No piece of the split holds a boundary. *)
Lemma split_sentences_go_pieces (s : string) (after_end in_sep : bool) :
  after_end && in_sep = false ->
  boundaries after_end (fst (Re.split_sentences_go after_end in_sep s)) = 0%nat
  /\ List.Forall (fun p => boundaries false p = 0%nat)
       (snd (Re.split_sentences_go after_end in_sep s)).
Proof.
  revert after_end in_sep. induction s as [|c r IH]; intros a i Hai.
  - split; [reflexivity | constructor].
  - cbn [Re.split_sentences_go].
    destruct (i && PyStr.isspace c) eqn:E1.
    + apply andb_true_iff in E1 as [-> Hsp].
      rewrite andb_true_r in Hai. subst a. now apply IH.
    + destruct (a && PyStr.isspace c) eqn:E2.
      * destruct (IH false true eq_refl) as [Hh Ht].
        destruct (Re.split_sentences_go false true r) as [h t].
        cbn [fst snd] in *. split; [reflexivity | now constructor].
      * destruct (IH (Re.sentence_end c) false (andb_false_r _)) as [Hh Ht].
        destruct (Re.split_sentences_go (Re.sentence_end c) false r) as [h t].
        cbn [fst snd boundaries] in *. rewrite E2, Hh. now split.
Qed.

Lemma split_sentences_pieces (s : string) :
  List.Forall (fun p => boundaries false p = 0%nat) (Re.split_sentences s).
Proof.
  unfold Re.split_sentences.
  destruct (split_sentences_go_pieces s false false eq_refl) as [Hh Ht].
  destruct (Re.split_sentences_go false false s) as [h t].
  now constructor.
Qed.

Lemma boundaries_join (l : list string) :
  List.Forall (fun p => boundaries false p = 0%nat) l ->
  (boundaries false (PyStr.join " " l) <= Nat.pred (List.length l))%nat.
Proof.
  unfold PyStr.join. induction l as [|x xs IH]; intros H; [cbn; lia |].
  inversion H as [|? ? Hx Hxs]; subst.
  destruct xs as [|y ys]; [cbn [String.concat List.length]; lia |].
  specialize (IH Hxs).
  change (String.concat " " (x :: y :: ys))
    with (x +:+ String " " (String.concat " " (y :: ys))).
  rewrite boundaries_app, Hx. cbn [boundaries].
  change (Re.sentence_end " ") with false.
  cbn [List.length Nat.pred] in *.
  destruct (last_end false x && PyStr.isspace " "); lia.
Qed.

Lemma boundaries_ellipsis (a : bool) (p : string) :
  boundaries a (p +:+ "...") = boundaries a p.
Proof.
  rewrite boundaries_app.
  assert (H : forall b, boundaries b "..." = 0%nat) by (intros []; reflexivity).
  rewrite H. lia.
Qed.

Lemma rsplit1_head_occurs (c : ascii) (s : string) :
  occurs (PyStr.rsplit1_head c s) s.
Proof.
  unfold PyStr.rsplit1_head. destruct (_ =? _);
    [apply occurs_refl | apply take_occurs].
Qed.

Lemma shorten_explanation_boundaries (text : value) (n : Z) :
  0 <= n ->
  (boundaries false (_shorten_explanation text n)
   <= Nat.pred (Z.to_nat n))%nat.
Proof.
  intros Hn. unfold _shorten_explanation.
  destruct (negb (truthy text)); [cbn; lia |].
  set (parts := Re.split_sentences (PyStr.strip (py_str text))).
  set (chosen := PyStr.slice_to n parts).
  set (short := PyStr.strip (PyStr.join " " chosen)).
  assert (Hshort : (boundaries false short <= Nat.pred (Z.to_nat n))%nat).
  { pose proof (boundaries_occurs _ _ (strip_occurs (PyStr.join " " chosen))) as H1.
    fold short in H1.
    assert (Hc : List.Forall (fun p => boundaries false p = 0%nat) chosen
                 /\ (List.length chosen <= Z.to_nat n)%nat).
    { unfold chosen, PyStr.slice_to.
      destruct (Z.leb_spec 0 n) as [_|]; [| lia].
      split; [apply Forall_take, split_sentences_pieces |].
      apply List.firstn_le_length. }
    destruct Hc as [Hc Hlen].
    pose proof (boundaries_join chosen Hc). lia. }
  destruct (240 <? String.length short)%nat; [| exact Hshort].
  rewrite boundaries_ellipsis.
  assert (Ho : occurs (PyStr.rsplit1_head " " (PyStr.take 240 short)) short).
  { apply occurs_trans with (PyStr.take 240 short);
      [apply rsplit1_head_occurs | apply take_occurs]. }
  apply boundaries_occurs in Ho. lia.
Qed.

(** X5. The shortened explanation holds at most [max_sentences] sentence
    pieces (and one piece when [max_sentences] is 0): split again by the
    expression the shortener uses, it gives no more pieces than that. *)
Theorem shorten_explanation_sentences (text : value) (n : Z) :
  0 <= n ->
  (List.length (Re.split_sentences (_shorten_explanation text n))
   <= Z.to_nat (Z.max 1 n))%nat.
Proof.
  intros Hn. rewrite split_sentences_length.
  pose proof (shorten_explanation_boundaries text n Hn). lia.
Qed.

Lemma drop_length_append (p s : string) :
  PyStr.drop (String.length p) (p +:+ s) = s.
Proof.
  induction p as [|c p IH]; [now destruct s |].
  rewrite append_cons. cbn [String.length PyStr.drop]. exact IH.
Qed.

Lemma endswith_append (p s : string) : PyStr.endswith s (p +:+ s) = true.
Proof.
  unfold PyStr.endswith. rewrite length_append.
  replace (String.length p + String.length s - String.length s)%nat
    with (String.length p) by lia.
  rewrite drop_length_append, String.eqb_refl.
  apply andb_true_iff. split; [apply Nat.leb_le; lia | reflexivity].
Qed.

(** X6. The shortened explanation never has more than 243 characters, and
    one of more than 240 characters ends with the ellipsis. *)
Theorem shorten_explanation_bounded (text : value) (n : Z) :
  (String.length (_shorten_explanation text n) <= 243)%nat
  /\ ((240 < String.length (_shorten_explanation text n))%nat ->
      PyStr.endswith "..." (_shorten_explanation text n) = true).
Proof.
  split; [apply shorten_explanation_length |].
  unfold _shorten_explanation.
  destruct (negb (truthy text)); [cbn; lia |].
  match goal with |- context [(240 <? ?l)%nat] => destruct (Nat.ltb_spec 240 l) end.
  - intros _. apply endswith_append.
  - lia.
Qed.

(** *** Coercer and orchestrator: what is returned and what is raised *)

Lemma normalize_label_canonical (v : value) (s : string) :
  _normalize_label v = Ok s -> In s ["Positive"; "Negative"; "Neutral"].
Proof.
  destruct v; cbn -[in_set]; try discriminate;
    repeat match goal with
           | |- context [if ?b then _ else _] => destruct b
           end;
    intros [= <-]; cbn;
    repeat (first [left; reflexivity | right]).
Qed.

(** X7. A label the normalizer returns is one it accepts, and it maps it to
    itself. *)
Theorem normalize_label_idempotent (v : value) (s : string) :
  _normalize_label v = Ok s -> _normalize_label (VStr s) = Ok s.
Proof.
  intros H. apply normalize_label_canonical in H.
  cbn in H. destruct H as [<-|[<-|[<-|[]]]]; reflexivity.
Qed.

Lemma confidence_of_range (d : gmap string value) :
  PyFloat.is_nan (confidence_of d) = true
  \/ PyFloat.in_unit (confidence_of d) = true.
Proof.
  destruct (confidence_of_cases d) as (Hnone & Hout & Hin).
  destruct (py_float (conf_raw_of d)) as [x|] eqn:E.
  - destruct (PyFloat.ltb x PyFloat.zero || PyFloat.gtb x PyFloat.one) eqn:B.
    + rewrite (Hout x eq_refl B). now right.
    + rewrite (Hin x eq_refl B). apply orb_false_iff in B as [B1 B2].
      destruct (PyFloat.is_nan x) eqn:N.
      * left. now destruct x.
      * right. now apply round2_unit.
  - rewrite (Hnone eq_refl). now right.
Qed.

Lemma ev_list_of_trimmed (ev : value) :
  List.Forall (fun p => PyStr.strip p = p) (ev_list_of ev).
Proof.
  destruct ev; try constructor; cbn [ev_list_of];
    apply List.Forall_map, List.Forall_forall; intros x _; apply strip_idem.
Qed.

Lemma coerce_result_shape (parsed : value) (r : AnalysisResult) :
  _coerce_result parsed = Ok r -> well_formed r.
Proof.
  destruct parsed as [| | | | | |d]; try discriminate.
  cbn [_coerce_result].
  destruct (_normalize_label (label_raw_of d)) as [lbl|] eqn:El; [| discriminate].
  intros [= <-]. unfold well_formed. cbn [label confidence explanation evidence_phrases].
  split; [now apply normalize_label_canonical with (label_raw_of d) |].
  split; [apply confidence_of_range |].
  split; [apply shorten_explanation_length |].
  split.
  { rewrite split_sentences_length.
    pose proof (shorten_explanation_boundaries (explanation_raw_of d) 2
                  ltac:(lia)). lia. }
  unfold evidence_phrases_of. rewrite slice_to_3. split.
  - rewrite List.length_firstn. lia.
  - apply Forall_take, ev_list_of_trimmed.
Qed.

(** X8. Whatever the parsed value, a result the coercer returns has a
    canonical label, a confidence that is NaN or between 0 and 1, an
    explanation of at most 243 characters and two sentence pieces, and at
    most three evidence phrases without surrounding white space. *)
Theorem coerce_result_well_formed (parsed : value) (r : AnalysisResult) :
  _coerce_result parsed = Ok r -> well_formed r.
Proof. apply coerce_result_shape. Qed.

(** X9. The coercer reads the twelve alias keys and nothing else: two
    mappings that agree on them are coerced alike, whatever other keys
    they hold. *)
Theorem coerce_result_only_aliases (d d' : gmap string value) :
  (forall k, In k ALIAS_KEYS -> d !! k = d' !! k) ->
  _coerce_result (VDict d) = _coerce_result (VDict d').
Proof.
  intros H.
  assert (Hget : forall k, In k ALIAS_KEYS -> dict_get d k = dict_get d' k).
  { intros k Hk. unfold dict_get. now rewrite (H k Hk). }
  unfold _coerce_result, label_raw_of, confidence_of, conf_raw_of,
    explanation_raw_of, evidence_phrases_of, ev_of.
  rewrite !(Hget "label"), !(Hget "sentiment"), !(Hget "prediction"),
    !(Hget "confidence"), !(Hget "score"), !(Hget "explanation"),
    !(Hget "rationale"), !(Hget "reason"), !(Hget "justification"),
    !(Hget "evidence_phrases"), !(Hget "evidence"), !(Hget "highlights");
    try reflexivity; cbn; repeat (first [left; reflexivity | right]).
Qed.

Lemma empty_result_shape : well_formed EMPTY_RESULT.
Proof.
  unfold well_formed. cbn [EMPTY_RESULT label confidence explanation evidence_phrases].
  split; [right; right; now left |]. split; [now right |].
  split; [cbn; lia |]. split; [cbn; lia |]. split; [cbn; lia | constructor].
Qed.

(** X10. Whatever the model answers, a result that [analyze_review] returns is
    well formed. *)
Theorem analyze_review_well_formed (review : option string) (strict : bool)
    (temperature : spec_float) (r : AnalysisResult) :
  snd (analyze_review review strict temperature) = Ok r -> well_formed r.
Proof.
  unfold analyze_review. cbv zeta.
  destruct (String.eqb _ EmptyString).
  - intros [= <-]. apply empty_result_shape.
  - destruct (generate_content _) as [resp|e]; [| discriminate].
    destruct (raw_of resp) as [raw|e]; [| discriminate].
    destruct (negb (truthy _)); [discriminate |].
    apply coerce_result_shape.
Qed.

Lemma normalize_label_raises (v : value) (e : exn) :
  _normalize_label v = Raise e ->
  e = ValueError "Label missing from model output"
  \/ e = ValueError ("Invalid label from model: '" +:+ py_str v +:+ "'").
Proof.
  destruct v; cbn -[in_set]; try (intros [= <-]; now left);
    repeat match goal with
           | |- context [if ?b then _ else _] => destruct b
           end;
    try discriminate; intros [= <-]; now right.
Qed.

(** X11. [analyze_review] sends at most one request and never asks again. A
    failure is either the one the model call raised, unchanged, or, after
    an answer, the one that reading the text of the answer raised,
    unchanged, or, once the raw text is read, one of three: the diagnostic
    error with the raw text, an error of the Label Normalizer, or the
    attribute failure of a lookup in a value that is not a mapping. An
    empty review never fails. *)
Theorem analyze_review_raises (review : option string) (strict : bool)
    (temperature : spec_float) (e : exn) :
  snd (analyze_review review strict temperature) = Raise e ->
  PyStr.strip (default EmptyString review) <> EmptyString
  /\ List.length (fst (analyze_review review strict temperature)) = 1%nat
  /\ (generate_content
        (request_for (PyStr.strip (default EmptyString review)) strict
           temperature) = Raise e
      \/ exists resp,
           generate_content
             (request_for (PyStr.strip (default EmptyString review)) strict
                temperature) = Ok resp
           /\ (raw_of resp = Raise e
               \/ exists raw,
                    raw_of resp = Ok raw
                    /\ (e = unparseable raw
                        \/ e = ValueError "Label missing from model output"
                        \/ (exists v, e = ValueError
                                            ("Invalid label from model: '"
                                             +:+ py_str v +:+ "'"))
                        \/ exists v, e = AttributeError
                                           ("'" +:+ type_name v
                                            +:+ "' object has no attribute 'get'")))).
Proof.
  unfold analyze_review. cbv zeta.
  destruct (String.eqb_spec (PyStr.strip (default EmptyString review)) EmptyString)
    as [E|E]; [discriminate |].
  destruct (generate_content _) as [resp|e'] eqn:Ecall.
  - destruct (raw_of resp) as [raw|e'] eqn:Eraw.
    + destruct (negb (truthy (_extract_json (Some raw)))) eqn:Et;
        cbn [fst snd].
      * intros [= <-]. split; [exact E | split; [reflexivity |]].
        right. exists resp. split; [reflexivity |].
        right. exists raw. split; [exact Eraw | now left].
      * intros H. split; [exact E | split; [reflexivity |]].
        right. exists resp. split; [reflexivity |].
        right. exists raw. split; [exact Eraw |].
        destruct (_extract_json (Some raw)) as [| | | | | |d] eqn:Ev;
          try (right; right; right;
               match type of H with _coerce_result ?v = _ => exists v end;
               cbn in H; injection H as <-; reflexivity).
        apply coerce_result_raises, normalize_label_raises in H as [-> | ->].
        -- right. now left.
        -- right. right. left. now eexists.
    + cbn [fst snd]. intros [= <-]. split; [exact E | split; [reflexivity |]].
      right. exists resp. split; [reflexivity |]. left. exact Eraw.
  - cbn [fst snd]. intros [= <-]. split; [exact E | split; [reflexivity |]].
    now left.
Qed.

(** *** The cache of the application *)

Lemma pow2_pos (n : Z) : 0 <= n -> 0 < 2 ^ n.
Proof. intros H. now apply Z.pow_pos_nonneg. Qed.

(** Equality of two dyadic numbers does not depend on the common exponent
    they are brought to. *)
Lemma dyadic_eq_scale (m1 e1 m2 e2 e : Z) :
  e <= e1 -> e <= e2 ->
  (m1 * 2 ^ (e1 - Z.min e1 e2) = m2 * 2 ^ (e2 - Z.min e1 e2)
   <-> m1 * 2 ^ (e1 - e) = m2 * 2 ^ (e2 - e)).
Proof.
  intros H1 H2.
  replace (e1 - e) with ((e1 - Z.min e1 e2) + (Z.min e1 e2 - e)) by lia.
  replace (e2 - e) with ((e2 - Z.min e1 e2) + (Z.min e1 e2 - e)) by lia.
  rewrite !Z.pow_add_r by lia. rewrite !Z.mul_assoc.
  pose proof (pow2_pos (Z.min e1 e2 - e) ltac:(lia)) as Hk.
  split; intros H; [now rewrite H |].
  apply Z.mul_reg_r in H; [exact H | lia].
Qed.

Lemma float_eqb_dyadic (x y : spec_float) :
  finite_or_zero x = true -> finite_or_zero y = true ->
  (float_eqb x y = true
   <-> fst (PyFloat.dyadic x)
       * 2 ^ (snd (PyFloat.dyadic x)
              - Z.min (snd (PyFloat.dyadic x)) (snd (PyFloat.dyadic y)))
       = fst (PyFloat.dyadic y)
         * 2 ^ (snd (PyFloat.dyadic y)
                - Z.min (snd (PyFloat.dyadic x)) (snd (PyFloat.dyadic y)))).
Proof.
  intros Hx Hy. unfold float_eqb.
  assert (E : PyFloat.compare x y =
              Some (Z.compare
                      (fst (PyFloat.dyadic x)
                       * 2 ^ (snd (PyFloat.dyadic x)
                              - Z.min (snd (PyFloat.dyadic x))
                                  (snd (PyFloat.dyadic y))))
                      (fst (PyFloat.dyadic y)
                       * 2 ^ (snd (PyFloat.dyadic y)
                              - Z.min (snd (PyFloat.dyadic x))
                                  (snd (PyFloat.dyadic y)))))).
  { destruct x, y; try discriminate Hx; try discriminate Hy; reflexivity. }
  rewrite E.
  destruct (Z.compare_spec
              (fst (PyFloat.dyadic x)
               * 2 ^ (snd (PyFloat.dyadic x)
                      - Z.min (snd (PyFloat.dyadic x)) (snd (PyFloat.dyadic y))))
              (fst (PyFloat.dyadic y)
               * 2 ^ (snd (PyFloat.dyadic y)
                      - Z.min (snd (PyFloat.dyadic x)) (snd (PyFloat.dyadic y)))));
    split; intros; try discriminate; try lia; reflexivity.
Qed.

Lemma float_eqb_refl (x : spec_float) :
  PyFloat.is_nan x = false -> float_eqb x x = true.
Proof.
  destruct x as [s|s| |s m e]; try discriminate; intros _.
  - reflexivity.
  - now destruct s.
  - unfold float_eqb, PyFloat.compare, PyFloat.dyadic.
    now rewrite Z.compare_refl.
Qed.

Lemma float_eqb_sym (x y : spec_float) :
  float_eqb x y = true -> float_eqb y x = true.
Proof.
  destruct (finite_or_zero x) eqn:Hx, (finite_or_zero y) eqn:Hy.
  - rewrite (float_eqb_dyadic x y Hx Hy), (float_eqb_dyadic y x Hy Hx).
    rewrite (Z.min_comm (snd (PyFloat.dyadic y))). intros H. now symmetry.
  - destruct x as [|s1| |], y as [s2|s2| |s2 ? ?];
      try discriminate Hx; try discriminate Hy;
      intros H; try discriminate H; now destruct s2.
  - destruct x as [s1|s1| |s1 ? ?], y as [|s2| |];
      try discriminate Hx; try discriminate Hy;
      intros H; try discriminate H; now destruct s1.
  - destruct x as [|s1| |], y as [|s2| |];
      try discriminate Hx; try discriminate Hy;
      intros H; try discriminate H.
    now destruct s1, s2.
Qed.

Lemma float_eqb_trans (x y z : spec_float) :
  float_eqb x y = true -> float_eqb y z = true -> float_eqb x z = true.
Proof.
  destruct (finite_or_zero x) eqn:Hx, (finite_or_zero y) eqn:Hy,
    (finite_or_zero z) eqn:Hz;
    try (destruct x as [s1|s1| |s1 ? ?], y as [s2|s2| |s2 ? ?],
           z as [s3|s3| |s3 ? ?];
         try discriminate Hx; try discriminate Hy; try discriminate Hz;
         intros H1 H2; try discriminate H1; try discriminate H2;
         destruct s1, s2, s3; try discriminate H1; discriminate H2).
  - rewrite (float_eqb_dyadic x y Hx Hy), (float_eqb_dyadic y z Hy Hz),
      (float_eqb_dyadic x z Hx Hz).
    set (m1 := fst (PyFloat.dyadic x)). set (e1 := snd (PyFloat.dyadic x)).
    set (m2 := fst (PyFloat.dyadic y)). set (e2 := snd (PyFloat.dyadic y)).
    set (m3 := fst (PyFloat.dyadic z)). set (e3 := snd (PyFloat.dyadic z)).
    set (e := Z.min e1 (Z.min e2 e3)).
    rewrite (dyadic_eq_scale m1 e1 m2 e2 e) by lia.
    rewrite (dyadic_eq_scale m2 e2 m3 e3 e) by lia.
    rewrite (dyadic_eq_scale m1 e1 m3 e3 e) by lia.
    congruence.
  - destruct x as [|s1| |], y as [|s2| |], z as [|s3| |];
      try discriminate Hx; try discriminate Hy; try discriminate Hz;
      intros H1 H2; try discriminate H1; try discriminate H2.
    now destruct s1, s2, s3.
Qed.

Lemma key_eqb_refl (k : cache_key) :
  PyFloat.is_nan (snd k) = false -> key_eqb k k = true.
Proof.
  destruct k as [[s b] t]. cbn [snd key_eqb]. intros H.
  rewrite String.eqb_refl, Bool.eqb_reflx, (float_eqb_refl t H). reflexivity.
Qed.

Lemma key_eqb_true (k1 k2 : cache_key) :
  key_eqb k1 k2 = true <->
  fst (fst k1) = fst (fst k2) /\ snd (fst k1) = snd (fst k2)
  /\ float_eqb (snd k1) (snd k2) = true.
Proof.
  destruct k1 as [[s1 b1] t1], k2 as [[s2 b2] t2]. cbn [key_eqb fst snd].
  rewrite !andb_true_iff, String.eqb_eq, Bool.eqb_true_iff.
  split; [intros [[? ?] ?] | intros (? & ? & ?)]; repeat split; assumption.
Qed.

(** Two equal keys are told apart by no stored key. *)
Lemma key_eqb_compat (k k1 k2 : cache_key) :
  key_eqb k1 k2 = true -> key_eqb k k1 = key_eqb k k2.
Proof.
  intros H. apply key_eqb_true in H as (Hs & Hb & Ht).
  destruct (key_eqb k k1) eqn:E1.
  - apply key_eqb_true in E1 as (Hs1 & Hb1 & Ht1).
    symmetry. apply key_eqb_true. repeat split; try congruence.
    now apply float_eqb_trans with (snd k1).
  - destruct (key_eqb k k2) eqn:E2; [| reflexivity].
    apply key_eqb_true in E2 as (Hs2 & Hb2 & Ht2).
    rewrite <- E1. apply key_eqb_true. repeat split; try congruence.
    apply float_eqb_trans with (snd k2); [exact Ht2 |].
    now apply float_eqb_sym.
Qed.

Lemma cache_get_compat (c : cache) (k1 k2 : cache_key) :
  key_eqb k1 k2 = true -> cache_get c k1 = cache_get c k2.
Proof.
  intros H. induction c as [|[k v] c IH]; [reflexivity |].
  cbn [cache_get]. now rewrite (key_eqb_compat k k1 k2 H), IH.
Qed.

(** A call changes the cache by at most one item, for a key that was not
    bound, and only when it returns. *)
Lemma cached_analyze_cache (text : string) (strict : bool)
    (temperature : spec_float) (c : cache) :
  snd (cached_analyze text strict temperature c) = c
  \/ exists r,
       cache_get c (PyStr.strip text, strict, temperature) = None
       /\ snd (fst (cached_analyze text strict temperature c)) = Ok r
       /\ snd (cached_analyze text strict temperature c)
          = ((PyStr.strip text, strict, temperature), r) :: c.
Proof.
  unfold cached_analyze. cbv zeta.
  destruct (cache_get c _) eqn:E; [now left |].
  destruct (analyze_review (Some text) strict temperature) as [sent [r|e]];
    [| now left].
  right. now exists r.
Qed.

Lemma cached_analyze_keeps (text : string) (strict : bool)
    (temperature : spec_float) (c : cache) (k : cache_key)
    (v : AnalysisResult) :
  cache_get c k = Some v ->
  cache_get (snd (cached_analyze text strict temperature c)) k = Some v.
Proof.
  intros Hk.
  destruct (cached_analyze_cache text strict temperature c)
    as [-> | (r & Hnone & _ & ->)]; [exact Hk |].
  cbn [cache_get].
  destruct (key_eqb (PyStr.strip text, strict, temperature) k) eqn:E;
    [| exact Hk].
  rewrite (cache_get_compat c _ _ E) in Hnone. congruence.
Qed.

Lemma cached_calls_keep (calls : list (string * bool * spec_float))
    (c : cache) (k : cache_key) (v : AnalysisResult) :
  cache_get c k = Some v -> cache_get (cached_calls calls c) k = Some v.
Proof.
  revert c. induction calls as [|[[text strict] t] rest IH]; intros c Hk;
    [exact Hk |].
  cbn [cached_calls]. apply IH. now apply cached_analyze_keeps.
Qed.

Lemma cached_analyze_binds (text : string) (strict : bool)
    (temperature : spec_float) (c : cache) (r : AnalysisResult) :
  PyFloat.is_nan temperature = false ->
  snd (fst (cached_analyze text strict temperature c)) = Ok r ->
  cache_get (snd (cached_analyze text strict temperature c))
    (PyStr.strip text, strict, temperature) = Some r.
Proof.
  intros Hn. unfold cached_analyze. cbv zeta.
  destruct (cache_get c _) eqn:E.
  - cbn [fst snd]. now intros [= <-].
  - destruct (analyze_review (Some text) strict temperature) as [sent [r'|e]];
      cbn [fst snd]; [| discriminate].
    intros [= <-]. cbn [cache_get].
    now rewrite (key_eqb_refl (PyStr.strip text, strict, temperature) Hn).
Qed.

(** X12. Once a call has returned a result, every later call for the same
    trimmed text, mode and temperature returns that result from the cache
    and sends no request, whatever calls were made in between; and the
    cache is left as it is. *)
Theorem cached_analyze_persistent (text text' : string) (strict : bool)
    (temperature : spec_float) (c : cache) (r : AnalysisResult)
    (calls : list (string * bool * spec_float)) :
  PyFloat.is_nan temperature = false ->
  snd (fst (cached_analyze text strict temperature c)) = Ok r ->
  PyStr.strip text' = PyStr.strip text ->
  let c' := cached_calls calls (snd (cached_analyze text strict temperature c)) in
  cached_analyze text' strict temperature c' = ([], Ok r, c').
Proof.
  intros Hn Hok Hs c'.
  assert (Hget : cache_get c' (PyStr.strip text', strict, temperature) = Some r).
  { rewrite Hs. apply cached_calls_keep. now apply cached_analyze_binds. }
  unfold cached_analyze. cbv zeta. now rewrite Hget.
Qed.

(** X13. A call never drops or replaces what the cache holds, and a call that
    fails leaves the cache as it was, so that the failure is not kept:
    the same call asks the model again. *)
Theorem cached_analyze_monotone (text : string) (strict : bool)
    (temperature : spec_float) (c : cache) :
  (forall k v, cache_get c k = Some v ->
     cache_get (snd (cached_analyze text strict temperature c)) k = Some v)
  /\ (forall e, snd (fst (cached_analyze text strict temperature c)) = Raise e ->
        snd (cached_analyze text strict temperature c) = c
        /\ cache_get c (PyStr.strip text, strict, temperature) = None
        /\ analyze_review (Some text) strict temperature
           = fst (cached_analyze text strict temperature c)).
Proof.
  split; [intros k v; apply cached_analyze_keeps |].
  intros e. unfold cached_analyze. cbv zeta.
  destruct (cache_get c _) eqn:E; [discriminate |].
  destruct (analyze_review (Some text) strict temperature) as [sent [r|e']];
    cbn [fst snd]; [discriminate |].
  now intros [= <-].
Qed.

(** *** The dataset loop of the application *)

Lemma process_rows_app (l1 l2 : list row) (strict : bool) (c : cache)
    (acc : columns) :
  process_rows (l1 ++ l2) strict c acc =
    match process_rows l1 strict c acc with
    | (sent, Raise e, c') => (sent, Raise e, c')
    | (sent, Ok acc', c') =>
        let '(sent', o, c'') := process_rows l2 strict c' acc' in
        (sent ++ sent', o, c'')
    end.
Proof.
  revert c acc. induction l1 as [|r l1 IH]; intros c acc.
  - cbn. now destruct (process_rows l2 strict c acc) as [[sent o] c'].
  - cbn [app process_rows]. cbv zeta.
    destruct (String.eqb _ EmptyString); [reflexivity |].
    destruct (cached_analyze _ strict DATASET_TEMPERATURE c)
      as [[sent [res|e]] c1]; [| reflexivity].
    rewrite IH.
    destruct (process_rows l1 strict c1 (append_result acc res))
      as [[sent1 [acc1|e1]] c2]; [| reflexivity].
    destruct (process_rows l2 strict c2 acc1) as [[sent2 o2] c3].
    now rewrite List.app_assoc.
Qed.

Lemma process_batches_concat (bs : list (list row)) (strict : bool)
    (c : cache) (acc : columns) :
  process_batches bs strict c acc = process_rows (List.concat bs) strict c acc.
Proof.
  revert c acc. induction bs as [|b bs IH]; intros c acc; [reflexivity |].
  cbn [process_batches List.concat]. rewrite process_rows_app.
  destruct (process_rows b strict c acc) as [[sent [acc'|e]] c'];
    [| reflexivity].
  now rewrite IH.
Qed.

Lemma firstn_add {A} (a b : nat) (l : list A) :
  List.firstn a l ++ List.firstn b (List.skipn a l) = List.firstn (a + b) l.
Proof.
  revert l. induction a as [|a IH]; intros l; [reflexivity |].
  destruct l as [|x l]; [cbn; now rewrite List.firstn_nil |].
  cbn. now rewrite IH.
Qed.

Lemma batches_from_concat (n start b : nat) (rows : list row) :
  List.concat (batches_from n start b rows)
  = List.firstn (n * b) (List.skipn start rows).
Proof.
  revert start. induction n as [|n IH]; intros start; [reflexivity |].
  cbn [batches_from List.concat]. rewrite IH.
  replace (start + b)%nat with (b + start)%nat by lia.
  rewrite <- List.skipn_skipn. apply firstn_add.
Qed.

Lemma batches_concat (b : nat) (rows : list row) :
  (0 < b)%nat -> List.concat (batches b rows) = rows.
Proof.
  intros Hb. unfold batches. rewrite batches_from_concat.
  cbn [List.skipn]. apply List.firstn_all2.
  pose proof (Nat.div_mod_eq (List.length rows + b - 1) b) as Hd.
  pose proof (Nat.mod_upper_bound (List.length rows + b - 1) b ltac:(lia)).
  nia.
Qed.

(** X15. The size of the batches does not matter: with any batch size of at
    least 1, the two loops go through the rows of the frame once, in
    order, as one loop over all rows does. *)
Theorem process_dataset_batching (batch_size : nat) (rows : list row)
    (strict : bool) (c : cache) :
  (0 < batch_size)%nat ->
  process_dataset batch_size rows strict c
  = process_rows rows strict c no_columns.
Proof.
  intros Hb. unfold process_dataset.
  now rewrite process_batches_concat, batches_concat.
Qed.

Lemma cached_analyze_sent (text : string) (strict : bool)
    (temperature : spec_float) (c : cache) :
  (List.length (fst (fst (cached_analyze text strict temperature c))) <= 1)%nat.
Proof.
  unfold cached_analyze. cbv zeta.
  destruct (cache_get c _); [cbn; lia |].
  assert (H : (List.length (fst (analyze_review (Some text) strict temperature))
               <= 1)%nat).
  { unfold analyze_review. cbv zeta.
    destruct (String.eqb _ EmptyString); [cbn; lia |].
    destruct (generate_content _) as [resp|]; [| cbn; lia].
    destruct (raw_of resp); [| cbn; lia].
    destruct (negb _); cbn; lia. }
  destruct (analyze_review (Some text) strict temperature) as [sent [r|e]];
    exact H.
Qed.

Lemma process_rows_columns (rows : list row) (strict : bool) (c : cache)
    (acc : columns) :
  (List.length (fst (fst (process_rows rows strict c acc)))
   <= List.length rows)%nat
  /\ forall cols, snd (fst (process_rows rows strict c acc)) = Ok cols ->
       List.length (preds cols) = (List.length (preds acc) + List.length rows)%nat
       /\ List.length (confidences cols)
          = (List.length (confidences acc) + List.length rows)%nat
       /\ List.length (explanations cols)
          = (List.length (explanations acc) + List.length rows)%nat
       /\ List.length (evidence cols)
          = (List.length (evidence acc) + List.length rows)%nat
       /\ List.Forall
            (fun r => PyStr.strip (default EmptyString (row_review_text r))
                      <> EmptyString) rows.
Proof.
  revert c acc. induction rows as [|r rows IH]; intros c acc.
  - cbn. split; [lia |]. intros cols [= <-]. repeat split; try lia. constructor.
  - cbn [process_rows]. cbv zeta.
    destruct (String.eqb_spec
                (PyStr.strip (default EmptyString (row_review_text r)))
                EmptyString) as [E|E]; [cbn; split; [lia | discriminate] |].
    pose proof (cached_analyze_sent (default EmptyString (row_review_text r))
                  strict DATASET_TEMPERATURE c) as Hs.
    destruct (cached_analyze _ strict DATASET_TEMPERATURE c)
      as [[sent [res|e]] c1]; cbn [fst snd List.length] in *;
      [| split; [lia | discriminate]].
    specialize (IH c1 (append_result acc res)).
    destruct (process_rows rows strict c1 (append_result acc res))
      as [[sent1 o1] c2]. cbn [fst snd List.length] in *.
    destruct IH as [IHs IHc]. split; [rewrite List.length_app; lia |].
    intros cols Hc. destruct (IHc cols Hc) as (H1 & H2 & H3 & H4 & H5).
    cbn [append_result preds confidences explanations evidence] in *.
    rewrite List.length_app in H1, H2, H3, H4. cbn [List.length] in *.
    repeat split; try lia. now constructor.
Qed.

(** X16. When the dataset run succeeds, each of the four lists it has filled
    holds one entry for every row of the frame, every row had a review
    that is not empty, and no more than one request was sent for a row. *)
Theorem process_dataset_columns (batch_size : nat) (rows : list row)
    (strict : bool) (c : cache) (cols : columns) :
  (0 < batch_size)%nat ->
  snd (fst (process_dataset batch_size rows strict c)) = Ok cols ->
  List.length (preds cols) = List.length rows
  /\ List.length (confidences cols) = List.length rows
  /\ List.length (explanations cols) = List.length rows
  /\ List.length (evidence cols) = List.length rows
  /\ List.Forall
       (fun r => PyStr.strip (default EmptyString (row_review_text r))
                 <> EmptyString) rows
  /\ (List.length (fst (fst (process_dataset batch_size rows strict c)))
      <= List.length rows)%nat.
Proof.
  intros Hb. unfold process_dataset.
  rewrite process_batches_concat, batches_concat by exact Hb.
  intros H.
  destruct (process_rows_columns rows strict c no_columns) as [Hs Hc].
  destruct (Hc cols H) as (H1 & H2 & H3 & H4 & H5).
  cbn [no_columns preds confidences explanations evidence List.length] in *.
  repeat split; try assumption; lia.
Qed.

(** X17. The run stops at the first row whose review is missing or empty: when
    the rows before it have gone through, the run fails with the error
    that names the index of that row and its [review_id] as the row prints
    it, the requests sent and the cache are those of the rows before it,
    and the rows after it play no part. *)
Theorem process_dataset_empty_review (batch_size : nat)
    (before after : list row) (bad : row) (strict : bool) (c c' : cache)
    (sent : list request) (cols : columns) :
  (0 < batch_size)%nat ->
  PyStr.strip (default EmptyString (row_review_text bad)) = EmptyString ->
  process_rows before strict c no_columns = (sent, Ok cols, c') ->
  process_dataset batch_size (before ++ bad :: after) strict c
  = (sent,
     Raise (ValueError ("Empty review_text at row " +:+ PyStr.of_Z (row_idx bad)
                        +:+ ", review_id=" +:+ row_review_id bad)),
     c').
Proof.
  intros Hb Hbad Hbefore. unfold process_dataset.
  rewrite process_batches_concat, batches_concat by exact Hb.
  rewrite process_rows_app, Hbefore. cbn [process_rows]. cbv zeta.
  rewrite Hbad. cbn. now rewrite List.app_nil_r.
Qed.

(** *** The evidence column and the coercer *)

Lemma cut_at_delims_go_plain (p : string) :
  has_delimiter p = false -> cut_at_delims_go p = (p, []).
Proof.
  induction p as [|c p IH]; [reflexivity |].
  cbn [has_delimiter cut_at_delims_go]. intros H.
  apply orb_false_iff in H as [Hc Hp]. now rewrite (IH Hp), Hc.
Qed.

Lemma cut_at_delims_go_bar (p rest : string) :
  has_delimiter p = false ->
  cut_at_delims_go (p +:+ String "|" rest)
  = (p, fst (cut_at_delims_go rest) :: snd (cut_at_delims_go rest)).
Proof.
  induction p as [|c p IH].
  - intros _. rewrite append_nil. cbn [cut_at_delims_go].
    now destruct (cut_at_delims_go rest).
  - cbn [has_delimiter]. intros H. apply orb_false_iff in H as [Hc Hp].
    rewrite append_cons. cbn [cut_at_delims_go]. now rewrite (IH Hp), Hc.
Qed.

Lemma cut_at_delims_join (x : string) (l : list string) :
  List.Forall (fun p => has_delimiter p = false) (x :: l) ->
  cut_at_delims (PyStr.join "|" (x :: l)) = x :: l.
Proof.
  revert x. induction l as [|y l IH]; intros x H.
  - inversion H; subst. unfold cut_at_delims, PyStr.join. cbn [String.concat].
    now rewrite cut_at_delims_go_plain.
  - inversion H as [|? ? Hx Hl]; subst. specialize (IH y Hl).
    unfold cut_at_delims, PyStr.join in *.
    change (String.concat "|" (x :: y :: l))
      with (x +:+ String "|" (String.concat "|" (y :: l))).
    rewrite (cut_at_delims_go_bar x _ Hx).
    destruct (cut_at_delims_go (String.concat "|" (y :: l))) as [h t].
    cbn [fst snd]. now rewrite IH.
Qed.

Lemma filter_strip_plain (l : list string) :
  List.Forall plain_phrase l ->
  List.filter nonempty (List.map PyStr.strip l) = l.
Proof.
  induction l as [|p l IH]; intros H; [reflexivity |].
  inversion H as [|? ? (Hs & Hne & _) Hl]; subst.
  cbn [List.map List.filter]. rewrite Hs. unfold nonempty at 1.
  destruct (String.eqb_spec p EmptyString) as [E|E]; [contradiction |].
  cbn [negb]. now rewrite (IH Hl).
Qed.

(** X19. The dataset mode writes the evidence of a row as its phrases joined by
    [|]; the coercer reads such a string back into the same phrases, when
    each phrase is trimmed, not empty and holds neither [|] nor [;]. *)
Theorem evidence_join_round_trip (l : list string) :
  List.Forall plain_phrase l ->
  ev_list_of (VStr (PyStr.join "|" l)) = l.
Proof.
  intros H. rewrite ev_list_of_string. unfold parts_of.
  destruct l as [|x l]; [reflexivity |].
  rewrite cut_at_delims_join; [now apply filter_strip_plain |].
  apply List.Forall_impl with (P := plain_phrase); [| exact H].
  now intros p (_ & _ & Hd).
Qed.

(** *** Well-formed results through the cache and the dataset loop *)

Lemma analyze_review_shape (review : option string) (strict : bool)
    (temperature : spec_float) (r : AnalysisResult) :
  snd (analyze_review review strict temperature) = Ok r -> well_formed r.
Proof.
  unfold analyze_review. cbv zeta.
  destruct (String.eqb _ EmptyString).
  - intros [= <-]. apply empty_result_shape.
  - destruct (generate_content _) as [resp|e]; [| discriminate].
    destruct (raw_of resp) as [raw|e]; [| discriminate].
    destruct (negb (truthy _)); [discriminate |].
    apply coerce_result_shape.
Qed.

Lemma cache_get_ok (c : cache) (k : cache_key) (v : AnalysisResult) :
  cache_ok c -> cache_get c k = Some v -> well_formed v.
Proof.
  unfold cache_ok. induction c as [|[k' v'] c IH]; [discriminate |].
  intros H. inversion H as [|? ? Hv Hc]; subst. cbn [cache_get].
  destruct (key_eqb k' k); [now intros [= <-] | now apply IH].
Qed.

Lemma cached_analyze_shape (text : string) (strict : bool)
    (temperature : spec_float) (c : cache) :
  cache_ok c ->
  cache_ok (snd (cached_analyze text strict temperature c))
  /\ forall r, snd (fst (cached_analyze text strict temperature c)) = Ok r ->
               well_formed r.
Proof.
  intros Hc. unfold cached_analyze. cbv zeta.
  destruct (cache_get c _) as [v|] eqn:E.
  - split; [exact Hc |]. cbn [fst snd]. intros r [= <-].
    now apply cache_get_ok with c (PyStr.strip text, strict, temperature).
  - pose proof (analyze_review_shape (Some text) strict temperature) as Hs.
    destruct (analyze_review (Some text) strict temperature) as [sent [r|e]];
      cbn [fst snd] in *.
    + split; [| now intros r' [= <-]; apply Hs].
      constructor; [now apply Hs | exact Hc].
    + split; [exact Hc | discriminate].
Qed.

(** X14. From a cache that holds only well-formed results, a result that
    [cached_analyze] returns, fresh or cached, is well formed, and the
    cache holds only well-formed results afterwards. *)
Theorem cached_analyze_well_formed (text : string) (strict : bool)
    (temperature : spec_float) (c : cache) :
  cache_ok c ->
  cache_ok (snd (cached_analyze text strict temperature c))
  /\ forall r, snd (fst (cached_analyze text strict temperature c)) = Ok r ->
               well_formed r.
Proof. apply cached_analyze_shape. Qed.

Lemma append_result_ok (acc : columns) (res : AnalysisResult) :
  columns_ok acc -> well_formed res -> columns_ok (append_result acc res).
Proof.
  intros (H1 & H2 & H3) (Hl & Hc & He & _).
  unfold columns_ok, append_result.
  cbn [preds confidences explanations]. rewrite !List.Forall_app.
  repeat split; try assumption; (constructor; [assumption | constructor]).
Qed.

Lemma process_rows_ok (rows : list row) (strict : bool) (c : cache)
    (acc : columns) :
  cache_ok c -> columns_ok acc ->
  cache_ok (snd (process_rows rows strict c acc))
  /\ forall cols, snd (fst (process_rows rows strict c acc)) = Ok cols ->
                  columns_ok cols.
Proof.
  revert c acc. induction rows as [|r rows IH]; intros c acc Hc Ha.
  - cbn. split; [exact Hc | now intros cols [= <-]].
  - cbn [process_rows]. cbv zeta.
    destruct (String.eqb _ EmptyString); [cbn; split; [exact Hc | discriminate] |].
    destruct (cached_analyze_shape (default EmptyString (row_review_text r))
                strict DATASET_TEMPERATURE c Hc) as [Hc1 Hr].
    destruct (cached_analyze _ strict DATASET_TEMPERATURE c)
      as [[sent [res|e]] c1]; cbn [fst snd] in *;
      [| split; [exact Hc1 | discriminate]].
    specialize (IH c1 (append_result acc res) Hc1
                  (append_result_ok acc res Ha (Hr res eq_refl))).
    now destruct (process_rows rows strict c1 (append_result acc res))
      as [[sent1 o1] c2].
Qed.

(** X18. From a cache that holds only well-formed results (an empty one, for
    instance), the lists a successful dataset run has filled hold only
    canonical labels, confidences that are NaN or between 0 and 1, and
    explanations of at most 243 characters. *)
Theorem process_dataset_well_formed (batch_size : nat) (rows : list row)
    (strict : bool) (c : cache) (cols : columns) :
  (0 < batch_size)%nat ->
  cache_ok c ->
  snd (fst (process_dataset batch_size rows strict c)) = Ok cols ->
  columns_ok cols.
Proof.
  intros Hb Hc. unfold process_dataset.
  rewrite process_batches_concat, batches_concat by exact Hb.
  apply process_rows_ok; [exact Hc |].
  unfold columns_ok, no_columns. cbn. repeat split; constructor.
Qed.

(** *** The accuracy of the dataset mode and the Label Normalizer *)

(** X20. For a canonical predicted label, a row counts as right exactly
    when the Label Normalizer maps the ground truth to that label and the
    ground truth is the label written in full, in any case and with any
    white space around it; a ground truth written as a short alias
    ([pos], [n], ...) never counts as right. *)
Theorem row_correct_normalized (ground pred : string) :
  In pred ["Positive"; "Negative"; "Neutral"] ->
  (row_correct ground pred = true
   <-> _normalize_label (VStr ground) = Ok pred
       /\ In (PyStr.lower (PyStr.strip ground))
            ["positive"; "negative"; "neutral"]).
Proof.
  intros Hp. unfold row_correct, _normalize_label. cbn [py_str].
  set (k := PyStr.lower (PyStr.strip ground)).
  cbn in Hp. destruct Hp as [<-|[<-|[<-|[]]]];
    match goal with
    | |- String.eqb k (PyStr.lower (PyStr.strip ?l)) = true <-> _ =>
        let w := eval vm_compute in (PyStr.lower (PyStr.strip l)) in
        change (PyStr.lower (PyStr.strip l)) with w
    end;
    rewrite String.eqb_eq; (split; [intros -> | intros [H Hk]]).
  - split; [reflexivity | now left].
  - cbn in Hk. destruct Hk as [<-|[<-|[<-|[]]]];
      [reflexivity | discriminate H | discriminate H].
  - split; [reflexivity | right; now left].
  - cbn in Hk. destruct Hk as [<-|[<-|[<-|[]]]];
      [discriminate H | reflexivity | discriminate H].
  - split; [reflexivity | right; right; now left].
  - cbn in Hk. destruct Hk as [<-|[<-|[<-|[]]]];
      [discriminate H | discriminate H | reflexivity].
Qed.

(** *** Repeated reviews in the dataset *)

Lemma process_rows_keeps (rows : list row) (strict : bool) (c : cache)
    (acc : columns) (k : cache_key) (v : AnalysisResult) :
  cache_get c k = Some v ->
  cache_get (snd (process_rows rows strict c acc)) k = Some v.
Proof.
  revert c acc. induction rows as [|r rows IH]; intros c acc Hk; [exact Hk |].
  cbn [process_rows]. cbv zeta.
  destruct (String.eqb _ EmptyString); [exact Hk |].
  pose proof (cached_analyze_keeps (default EmptyString (row_review_text r))
                strict DATASET_TEMPERATURE c k v Hk) as H1.
  destruct (cached_analyze _ strict DATASET_TEMPERATURE c)
    as [[sent [res|e]] c1]; cbn [snd] in *; [| exact H1].
  specialize (IH c1 (append_result acc res) H1).
  now destruct (process_rows rows strict c1 (append_result acc res))
    as [[sent1 o1] c2].
Qed.

Lemma process_rows_binds (rows : list row) (strict : bool) (c : cache)
    (acc cols : columns) (r0 : row) :
  snd (fst (process_rows rows strict c acc)) = Ok cols ->
  In r0 rows ->
  exists v,
    cache_get (snd (process_rows rows strict c acc))
      (PyStr.strip (default EmptyString (row_review_text r0)), strict,
       DATASET_TEMPERATURE) = Some v.
Proof.
  revert c acc. induction rows as [|r rows IH]; intros c acc Hok Hin;
    [destruct Hin |].
  cbn [process_rows] in *. cbv zeta in *.
  destruct (String.eqb _ EmptyString); [discriminate Hok |].
  pose proof (cached_analyze_binds (default EmptyString (row_review_text r))
                strict DATASET_TEMPERATURE c) as Hb.
  destruct (cached_analyze _ strict DATASET_TEMPERATURE c)
    as [[sent [res|e]] c1]; cbn [fst snd] in *; [| discriminate Hok].
  specialize (Hb res eq_refl eq_refl).
  pose proof (process_rows_keeps rows strict c1 (append_result acc res)) as Hk.
  specialize (IH c1 (append_result acc res)).
  destruct (process_rows rows strict c1 (append_result acc res))
    as [[sent1 o1] c2]. cbn [fst snd] in *.
  destruct Hin as [<- | Hin].
  - exists res. now apply Hk.
  - now apply IH.
Qed.

(** X21. A review that trims to the same text as the review of an earlier
    row of the run is answered from the cache: the loop goes on with the
    cached result, sends no request for that row and leaves the cache as
    it is. *)
Theorem process_dataset_repeated_review (batch_size : nat)
    (before : list row) (r0 r : row) (strict : bool) (c c' : cache)
    (sent : list request) (cols : columns) :
  (0 < batch_size)%nat ->
  process_rows before strict c no_columns = (sent, Ok cols, c') ->
  In r0 before ->
  PyStr.strip (default EmptyString (row_review_text r))
  = PyStr.strip (default EmptyString (row_review_text r0)) ->
  exists v,
    cache_get c' (PyStr.strip (default EmptyString (row_review_text r0)),
                  strict, DATASET_TEMPERATURE) = Some v
    /\ process_dataset batch_size (before ++ [r]) strict c
       = (sent, Ok (append_result cols v), c').
Proof.
  intros Hb Hbefore Hin Hsame.
  destruct (process_rows_binds before strict c no_columns cols r0) as (v & Hv).
  { now rewrite Hbefore. }
  { exact Hin. }
  rewrite Hbefore in Hv. cbn [snd] in Hv. exists v. split; [exact Hv |].
  assert (Hne : PyStr.strip (default EmptyString (row_review_text r0))
                <> EmptyString).
  { destruct (process_rows_columns before strict c no_columns) as [_ Hc].
    rewrite Hbefore in Hc. destruct (Hc cols eq_refl) as (_ & _ & _ & _ & Hall).
    rewrite List.Forall_forall in Hall. now apply Hall. }
  unfold process_dataset.
  rewrite process_batches_concat, batches_concat by exact Hb.
  rewrite process_rows_app, Hbefore. cbn [process_rows]. cbv zeta.
  rewrite Hsame.
  destruct (String.eqb_spec
              (PyStr.strip (default EmptyString (row_review_text r0)))
              EmptyString) as [E|_]; [contradiction |].
  unfold cached_analyze. cbv zeta. rewrite Hsame, Hv.
  now rewrite !List.app_nil_r.
Qed.

End Core.

(** * Closed examples *)

Lemma analyze_review_empty_witness :
  analyze_review json_loads_table float_of_str_table repr_float_table
    repr_container_table (model_answering "{}") None true temp_0_2
  = ([], Ok EMPTY_RESULT)
  /\ analyze_review json_loads_table float_of_str_table repr_float_table
       repr_container_table (model_answering "{}")
       (Some (" " +:+ nl +:+ "  ")) false temp_0_2
     = ([], Ok EMPTY_RESULT).
Proof.
  split.
  - apply (analyze_review_empty json_loads_table float_of_str_table
             repr_float_table repr_container_table (model_answering "{}")
             None true temp_0_2).
    reflexivity.
  - apply (analyze_review_empty json_loads_table float_of_str_table
             repr_float_table repr_container_table (model_answering "{}")
             (Some (" " +:+ nl +:+ "  ")) false temp_0_2).
    reflexivity.
Defined.

(** The claim C3 fails where the model answers with an empty object: a
    structure is recovered, and the diagnostic error is raised all the
    same. *)
Lemma analyze_review_empty_object :
  recovered_structure json_loads_table "{}" = Some (VDict ∅)
  /\ snd (analyze_review json_loads_table float_of_str_table repr_float_table
            repr_container_table (model_answering "{}")
            (Some "Great film") true temp_0_2)
     = Raise (unparseable "{}").
Proof. split; vm_compute; reflexivity. Qed.

(** With the model answering [{"label": "pos"}], the hypotheses of
    [analyze_review_failures] hold and the call returns what the coercion
    of the recovered object returns. *)
Lemma analyze_review_failures_witness :
  snd (analyze_review json_loads_table float_of_str_table repr_float_table
         repr_container_table (model_answering text_label_pos)
         (Some review_mixed) true temp_0_2)
  = _coerce_result float_of_str_table repr_float_table repr_container_table
      (VDict {[ "label" := VStr "pos" ]}).
Proof.
  refine (proj1 (proj2 (proj2
            (proj2
               (analyze_review_failures json_loads_table float_of_str_table
                  repr_float_table repr_container_table
                  (model_answering text_label_pos)
                  (Some review_mixed) true temp_0_2
                  {| resp_text := Ok (Some text_label_pos);
                     resp_str := "response" |}
                  _ _)
               text_label_pos _))
            {[ "label" := VStr "pos" ]} _ _)).
  - vm_compute. discriminate.
  - reflexivity.
  - reflexivity.
  - vm_compute. reflexivity.
  - vm_compute. reflexivity.
Defined.

(** An answer whose text cannot be read: the failure of the read is the
    failure of the call, and one request has been sent. An answer without
    the attribute, or whose text is empty, is read as [str(resp)]. *)
Example analyze_review_text_unreadable :
  analyze_review json_loads_table float_of_str_table repr_float_table
    repr_container_table
    (model_without_text (ValueError "The response holds no valid part."))
    (Some review_mixed) true temp_0_2
  = ([request_for review_mixed true temp_0_2],
     Raise (ValueError "The response holds no valid part."))
  /\ raw_of {| resp_text := Raise (AttributeError "text"); resp_str := "{}" |}
     = Ok "{}"
  /\ raw_of {| resp_text := Ok None; resp_str := "{}" |} = Ok "{}"
  /\ raw_of {| resp_text := Ok (Some EmptyString); resp_str := "{}" |} = Ok "{}"
  /\ raw_of {| resp_text := Ok (Some "[1]"); resp_str := "{}" |} = Ok "[1]".
Proof. repeat split; vm_compute; reflexivity. Qed.

(** The claim C5 fails on two inputs. With [confidence] at [0] and [score]
    at [0.9], the first value that is not absent is [0], which gives [0.0],
    and the code returns [0.9]. With [confidence] at NaN the code returns
    NaN, which is not in the unit interval. *)
Lemma coerce_confidence_by_presence_fails :
  confidence_by_presence float_of_str_table d_zero_confidence = PyFloat.zero
  /\ confidence_of float_of_str_table d_zero_confidence = f_0_9
  /\ confidence_of float_of_str_table d_zero_confidence
     <> confidence_by_presence float_of_str_table d_zero_confidence
  /\ confidence_of float_of_str_table d_nan_confidence = S754_nan
  /\ PyFloat.in_unit (confidence_of float_of_str_table d_nan_confidence) = false
  /\ (exists r, _coerce_result float_of_str_table repr_float_table
                  repr_container_table (VDict d_nan_confidence) = Ok r
                /\ confidence r = S754_nan).
Proof.
  repeat split; try (vm_compute; reflexivity).
  - vm_compute. discriminate.
  - eexists. split; vm_compute; reflexivity.
Qed.

(** The claim C6 fails on two inputs. With [evidence_phrases] at the empty
    list and [evidence] at a list of one phrase, the first value that is
    not absent is the empty list, and the code returns the phrase. And an
    element is returned trimmed, not in its string form. *)
Lemma coerce_evidence_by_presence_fails :
  evidence_by_presence repr_float_table repr_container_table d_empty_evidence = []
  /\ evidence_phrases_of repr_float_table repr_container_table d_empty_evidence
     = ["plot"]
  /\ evidence_by_presence repr_float_table repr_container_table d_padded_evidence
     = [" plot "]
  /\ evidence_phrases_of repr_float_table repr_container_table d_padded_evidence
     = ["plot"].
Proof. repeat split; vm_compute; reflexivity. Qed.

Lemma not_occurs_by_test (needle s : string) :
  occursb needle s = false -> ~ occurs needle s.
Proof. intros H Ho. apply occurs_occursb in Ho. congruence. Qed.

(** For the mixed review of the specification in strict mode, one request
    is sent; its prompt holds the STRICT directive and not the LENIENT
    one, which the review does not hold. *)
Lemma analyze_review_prompt_witness :
  exists prompt,
    fst (analyze_review json_loads_table float_of_str_table repr_float_table
           repr_container_table (model_answering text_label_pos)
           (Some review_mixed) true temp_0_2)
    = [ {| req_model := MODEL_NAME; req_prompt := prompt;
           req_config := {| temperature := temp_0_2;
                            max_output_tokens := 256 |} |} ]
    /\ occurs STRICT_INST prompt
    /\ ~ occurs LENIENT_INST prompt.
Proof.
  destruct (analyze_review_prompt json_loads_table float_of_str_table
              repr_float_table repr_container_table
              (model_answering text_label_pos)
              (Some review_mixed) true temp_0_2)
    as (prompt & Hfst & _ & _ & _ & _ & _ & Hin & Hout).
  - vm_compute. discriminate.
  - exists prompt. split; [exact Hfst | split; [exact Hin |]].
    intros H. apply Hout in H. revert H.
    apply not_occurs_by_test. vm_compute. reflexivity.
Defined.

(** A review that quotes the LENIENT directive, in strict mode: the prompt
    holds the STRICT directive as the directive of its mode, and the
    LENIENT text inside the quoted review. *)
Example prompt_of_quoted_directive :
  occursb STRICT_INST (build_prompt LENIENT_INST true) = true
  /\ occursb LENIENT_INST (build_prompt LENIENT_INST true) = true
  /\ occursb LENIENT_INST (prompt_head true) = false
  /\ occursb LENIENT_INST prompt_tail = false.
Proof. repeat split; vm_compute; reflexivity. Qed.

(** With the model answering [[1]], the call fails on the lookup in a
    list; with [42], on the lookup in an integer. *)
Lemma analyze_review_non_mapping_witness :
  snd (analyze_review json_loads_table float_of_str_table repr_float_table
         repr_container_table (model_answering "[1]")
         (Some review_mixed) true temp_0_2)
  = Raise (AttributeError "'list' object has no attribute 'get'")
  /\ snd (analyze_review json_loads_table float_of_str_table repr_float_table
            repr_container_table (model_answering "42")
            (Some review_mixed) false temp_0_2)
     = Raise (AttributeError "'int' object has no attribute 'get'").
Proof.
  split.
  - refine (proj1
              (analyze_review_non_mapping json_loads_table float_of_str_table
                 repr_float_table repr_container_table (model_answering "[1]")
                 (Some review_mixed) true temp_0_2
                 {| resp_text := Ok (Some "[1]"); resp_str := "response" |}
                 "[1]" (VList [VInt 1]) _ _ _ _ _ _)).
    + vm_compute. discriminate.
    + reflexivity.
    + reflexivity.
    + vm_compute. reflexivity.
    + reflexivity.
    + discriminate.
  - refine (proj1
              (analyze_review_non_mapping json_loads_table float_of_str_table
                 repr_float_table repr_container_table (model_answering "42")
                 (Some review_mixed) false temp_0_2
                 {| resp_text := Ok (Some "42"); resp_str := "response" |}
                 "42" (VInt 42) _ _ _ _ _ _)).
    + vm_compute. discriminate.
    + reflexivity.
    + reflexivity.
    + vm_compute. reflexivity.
    + reflexivity.
    + discriminate.
Defined.

(** ** The examples of the specification *)

Example normalize_label_aliases :
  List.map (fun s => _normalize_label repr_float_table repr_container_table (VStr s))
    ["positive"; "pos"; "p"; "POSITIVE"; " Positive "; "NEG"; "n"; " Neutral";
     "ntrl"]
  = [Ok "Positive"; Ok "Positive"; Ok "Positive"; Ok "Positive"; Ok "Positive";
     Ok "Negative"; Ok "Negative"; Ok "Neutral"; Ok "Neutral"]
  /\ _normalize_label repr_float_table repr_container_table (VStr "mixed")
     = Raise (ValueError "Invalid label from model: 'mixed'")
  /\ _normalize_label repr_float_table repr_container_table (VInt 7)
     = Raise (ValueError "Invalid label from model: '7'").
Proof. repeat split; vm_compute; reflexivity. Qed.

Example confidence_out_of_range :
  confidence_of float_of_str_table
    {[ "confidence" := VFloat f_minus_0_5 ]} = PyFloat.zero
  /\ confidence_of float_of_str_table {[ "confidence" := VFloat f_1_7 ]}
     = PyFloat.zero
  /\ confidence_of float_of_str_table {[ "confidence" := VStr "abc" ]}
     = PyFloat.zero
  /\ confidence_of float_of_str_table {[ "score" := VStr "0.9" ]} = f_0_9
  /\ confidence_of float_of_str_table {[ "confidence" := VBool true ]}
     = PyFloat.one.
Proof. repeat split; vm_compute; reflexivity. Qed.

Example shorten_four_sentences :
  _shorten_explanation repr_float_table repr_container_table
    (VStr "One here. Two there!  Three? Four.") 2
  = "One here. Two there!".
Proof. vm_compute. reflexivity. Qed.

Example clean_fenced_text :
  _clean_text_preserve_json (Some text_fenced) = text_object
  /\ _clean_text_preserve_json
       (Some ("Sure, here is the result:" +:+ nl +:+ text_object +:+ nl
              +:+ "Hope this helps!"))
     = text_object
  /\ _clean_text_preserve_json (Some "no braces here") = "no braces here"
  /\ _clean_text_preserve_json (Some "} before {") = "} before {".
Proof. repeat split; vm_compute; reflexivity. Qed.

Example evidence_of_five :
  evidence_phrases_of repr_float_table repr_container_table
    {[ "evidence" := VList [VStr "a"; VInt 2; VNone; VStr "c"; VStr "d";
                            VStr "e"] ]}
  = ["a"; "2"; "c"]
  /\ evidence_phrases_of repr_float_table repr_container_table
       {[ "highlights" := VStr "great acting; boring plot" ]}
     = ["great acting"; "boring plot"].
Proof. repeat split; vm_compute; reflexivity. Qed.

Example coerce_falsy_first :
  _coerce_result float_of_str_table repr_float_table repr_container_table
    (VDict d_falsy_first)
  = Ok {| label := "Positive"; confidence := f_0_9;
          explanation := EmptyString; evidence_phrases := [] |}.
Proof. vm_compute. reflexivity. Qed.

(** [prediction] ends the label chain: its value goes to the normalizer
    as it is, so an empty [prediction] is an invalid label, and an absent
    one a missing label. *)
Example coerce_falsy_prediction :
  _coerce_result float_of_str_table repr_float_table repr_container_table
    (VDict {[ "prediction" := VStr EmptyString ]})
  = Raise (ValueError "Invalid label from model: ''")
  /\ _coerce_result float_of_str_table repr_float_table repr_container_table
       (VDict ∅)
     = Raise (ValueError "Label missing from model output").
Proof. split; vm_compute; reflexivity. Qed.

Example coerce_invalid_label :
  _coerce_result float_of_str_table repr_float_table repr_container_table
    (VDict {[ "label" := VStr "maybe" ]})
  = Raise (ValueError "Invalid label from model: 'maybe'").
Proof. vm_compute. reflexivity. Qed.

(** On doubles in canonical form the order of [PyFloat] is the one of
    [SpecFloat]; [round(0.125, 2)] is [0.12] and [round(0.375, 2)] is
    [0.38], the ties going to the even hundredth. *)
Example float_checks :
  (let xs := [PyFloat.zero; S754_zero true; PyFloat.one; f_0_9; f_minus_0_5;
              f_1_7; temp_0_2; S754_infinity false; S754_infinity true;
              S754_nan] in
   List.forallb
     (fun x => List.forallb
                 (fun y => Bool.eqb (PyFloat.ltb x y) (SFltb x y)
                           && Bool.eqb (PyFloat.leb x y) (SFleb x y)) xs) xs)
  = true
  /\ PyFloat.round2 (S754_finite false 1 (-3))
     = S754_finite false 8646911284551352 (-56)
  /\ PyFloat.round2 (S754_finite false 3 (-3))
     = S754_finite false 6845471433603154 (-54)
  /\ PyFloat.round2 f_0_9 = f_0_9
  /\ PyFloat.round2 PyFloat.one = PyFloat.one.
Proof. repeat split; vm_compute; reflexivity. Qed.

(** * Closed examples of the further properties *)

Lemma clean_text_idempotent_witness :
  _clean_text_preserve_json (Some (_clean_text_preserve_json (Some text_fenced)))
  = _clean_text_preserve_json (Some text_fenced).
Proof. apply clean_text_idempotent. vm_compute. reflexivity. Defined.

Lemma clean_text_bare_object_witness :
  _clean_text_preserve_json (Some text_label_pos) = text_label_pos
  /\ _extract_json json_loads_table (Some text_label_pos)
     = VDict {[ "label" := VStr "pos" ]}.
Proof.
  apply (clean_text_bare_object json_loads_table text_label_pos);
    vm_compute; reflexivity.
Defined.

Lemma shorten_explanation_sentences_witness :
  (List.length
     (Re.split_sentences
        (_shorten_explanation repr_float_table repr_container_table
           (VStr "One here. Two there!  Three? Four.") 2))
   <= Z.to_nat (Z.max 1 2))%nat.
Proof. apply shorten_explanation_sentences. lia. Defined.

Lemma normalize_label_idempotent_witness :
  _normalize_label repr_float_table repr_container_table (VStr "Positive")
  = Ok "Positive".
Proof.
  apply (normalize_label_idempotent repr_float_table repr_container_table
           (VStr " POS ")).
  vm_compute. reflexivity.
Defined.

Lemma coerce_result_well_formed_witness :
  well_formed
    {| label := "Positive"; confidence := f_0_9;
       explanation := EmptyString; evidence_phrases := [] |}.
Proof.
  apply (coerce_result_well_formed float_of_str_table repr_float_table
           repr_container_table (VDict d_falsy_first)).
  vm_compute. reflexivity.
Defined.

Lemma coerce_result_only_aliases_witness :
  _coerce_result float_of_str_table repr_float_table repr_container_table
    (VDict {[ "label" := VStr "pos" ]})
  = _coerce_result float_of_str_table repr_float_table repr_container_table
      (VDict d_label_note).
Proof.
  apply coerce_result_only_aliases.
  intros k Hk. cbn in Hk.
  repeat (destruct Hk as [<- | Hk]; [vm_compute; reflexivity |]).
  destruct Hk.
Defined.

Lemma analyze_review_well_formed_witness : well_formed result_pos.
Proof.
  apply (analyze_review_well_formed json_loads_table float_of_str_table
           repr_float_table repr_container_table
           (model_answering text_label_pos) (Some review_mixed) true temp_0_2).
  vm_compute. reflexivity.
Defined.

Lemma analyze_review_raises_witness :
  PyStr.strip review_mixed <> EmptyString
  /\ List.length
       (fst (analyze_review json_loads_table float_of_str_table
               repr_float_table repr_container_table (model_answering "{}")
               (Some review_mixed) true temp_0_2)) = 1%nat.
Proof.
  destruct (analyze_review_raises json_loads_table float_of_str_table
              repr_float_table repr_container_table (model_answering "{}")
              (Some review_mixed) true temp_0_2 (unparseable "{}"))
    as (H1 & H2 & _).
  - vm_compute. reflexivity.
  - split; [exact H1 | exact H2].
Defined.

Lemma cached_analyze_persistent_witness :
  cached_analyze json_loads_table float_of_str_table repr_float_table
    repr_container_table (model_answering text_label_pos)
    " Great film" true temp_0_2
    (cached_calls json_loads_table float_of_str_table repr_float_table
       repr_container_table (model_answering text_label_pos)
       [("Another film", false, temp_0_2)]
       (snd (cached_analyze json_loads_table float_of_str_table
               repr_float_table repr_container_table
               (model_answering text_label_pos)
               "Great film " true temp_0_2 [])))
  = ([], Ok result_pos,
     cached_calls json_loads_table float_of_str_table repr_float_table
       repr_container_table (model_answering text_label_pos)
       [("Another film", false, temp_0_2)]
       (snd (cached_analyze json_loads_table float_of_str_table
               repr_float_table repr_container_table
               (model_answering text_label_pos)
               "Great film " true temp_0_2 []))).
Proof.
  apply (cached_analyze_persistent json_loads_table float_of_str_table
           repr_float_table repr_container_table
           (model_answering text_label_pos)
           "Great film " " Great film" true temp_0_2 [] result_pos
           [("Another film", false, temp_0_2)]).
  - reflexivity.
  - vm_compute. reflexivity.
  - vm_compute. reflexivity.
Defined.

Lemma cached_analyze_well_formed_witness :
  cache_ok
    (snd (cached_analyze json_loads_table float_of_str_table repr_float_table
            repr_container_table (model_answering text_label_pos)
            "Great film" true temp_0_2 [])).
Proof.
  apply (cached_analyze_well_formed json_loads_table float_of_str_table
           repr_float_table repr_container_table
           (model_answering text_label_pos) "Great film" true temp_0_2 []).
  constructor.
Defined.

Lemma process_dataset_batching_witness :
  process_dataset json_loads_table float_of_str_table repr_float_table
    repr_container_table (model_answering text_label_pos)
    5 [row_0; row_1] true []
  = process_rows json_loads_table float_of_str_table repr_float_table
      repr_container_table (model_answering text_label_pos)
      [row_0; row_1] true [] no_columns.
Proof. apply process_dataset_batching. lia. Defined.

Lemma process_dataset_columns_witness :
  List.length [ "Positive"; "Positive" ] = List.length [row_0; row_1]
  /\ (List.length
        (fst (fst (process_dataset json_loads_table float_of_str_table
                     repr_float_table repr_container_table
                     (model_answering text_label_pos)
                     5 [row_0; row_1] true [])))
      <= List.length [row_0; row_1])%nat.
Proof.
  destruct (process_dataset_columns json_loads_table float_of_str_table
              repr_float_table repr_container_table
              (model_answering text_label_pos)
              5 [row_0; row_1] true []
              {| preds := ["Positive"; "Positive"];
                 confidences := [PyFloat.zero; PyFloat.zero];
                 explanations := [EmptyString; EmptyString];
                 evidence := [EmptyString; EmptyString] |})
    as (H1 & _ & _ & _ & _ & H6).
  - lia.
  - vm_compute. reflexivity.
  - split; [exact H1 | exact H6].
Defined.

Lemma process_dataset_empty_review_witness :
  process_dataset json_loads_table float_of_str_table repr_float_table
    repr_container_table (model_answering text_label_pos)
    5 ([row_0] ++ row_blank :: [row_3]) true []
  = ([request_for "Great film" true DATASET_TEMPERATURE],
     Raise (ValueError "Empty review_text at row 2, review_id=3"),
     [(("Great film", true, DATASET_TEMPERATURE), result_pos)]).
Proof.
  apply (process_dataset_empty_review json_loads_table float_of_str_table
           repr_float_table repr_container_table
           (model_answering text_label_pos)
           5 [row_0] [row_3] row_blank true []
           [(("Great film", true, DATASET_TEMPERATURE), result_pos)]
           [request_for "Great film" true DATASET_TEMPERATURE]
           {| preds := ["Positive"]; confidences := [PyFloat.zero];
              explanations := [EmptyString]; evidence := [EmptyString] |}).
  - lia.
  - vm_compute. reflexivity.
  - vm_compute. reflexivity.
Defined.

(** A frame of numbers with its [review_text] missing: the error prints the
    identifier as the row of floats holds it. *)
Example process_dataset_row_of_floats :
  process_dataset json_loads_table float_of_str_table repr_float_table
    repr_container_table (model_answering text_label_pos)
    5 [row_of_floats] true []
  = ([], Raise (ValueError "Empty review_text at row 0, review_id=1.0"), []).
Proof. vm_compute. reflexivity. Qed.

Lemma process_dataset_well_formed_witness :
  columns_ok
    {| preds := ["Positive"; "Positive"];
       confidences := [PyFloat.zero; PyFloat.zero];
       explanations := [EmptyString; EmptyString];
       evidence := [EmptyString; EmptyString] |}.
Proof.
  apply (process_dataset_well_formed json_loads_table float_of_str_table
           repr_float_table repr_container_table
           (model_answering text_label_pos)
           5 [row_0; row_1] true []).
  - lia.
  - constructor.
  - vm_compute. reflexivity.
Defined.

Lemma evidence_join_round_trip_witness :
  ev_list_of repr_float_table repr_container_table
    (VStr "great acting|boring plot")
  = ["great acting"; "boring plot"].
Proof.
  apply (evidence_join_round_trip repr_float_table repr_container_table
           ["great acting"; "boring plot"]).
  repeat constructor; try (vm_compute; reflexivity); discriminate.
Defined.

Lemma row_correct_normalized_witness :
  row_correct " POSITIVE " "Positive" = true
  <-> _normalize_label repr_float_table repr_container_table
        (VStr " POSITIVE ") = Ok "Positive"
      /\ In (PyStr.lower (PyStr.strip " POSITIVE "))
           ["positive"; "negative"; "neutral"].
Proof.
  apply (row_correct_normalized repr_float_table repr_container_table
           " POSITIVE " "Positive").
  simpl. left. reflexivity.
Defined.

Lemma process_dataset_repeated_review_witness :
  exists v,
    cache_get [(("Great film", true, DATASET_TEMPERATURE), result_pos)]
      (PyStr.strip (default EmptyString (row_review_text row_0)), true,
       DATASET_TEMPERATURE) = Some v
    /\ process_dataset json_loads_table float_of_str_table repr_float_table
         repr_container_table (model_answering text_label_pos)
         5 ([row_0] ++ [row_1]) true []
       = ([request_for "Great film" true DATASET_TEMPERATURE],
          Ok (append_result
                {| preds := ["Positive"]; confidences := [PyFloat.zero];
                   explanations := [EmptyString]; evidence := [EmptyString] |}
                v),
          [(("Great film", true, DATASET_TEMPERATURE), result_pos)]).
Proof.
  apply (process_dataset_repeated_review json_loads_table float_of_str_table
           repr_float_table repr_container_table
           (model_answering text_label_pos)
           5 [row_0] row_0 row_1 true []
           [(("Great film", true, DATASET_TEMPERATURE), result_pos)]
           [request_for "Great film" true DATASET_TEMPERATURE]
           {| preds := ["Positive"]; confidences := [PyFloat.zero];
              explanations := [EmptyString]; evidence := [EmptyString] |}).
  - lia.
  - vm_compute. reflexivity.
  - simpl. left. reflexivity.
  - vm_compute. reflexivity.
Defined.
